(** * Vegetation prediction notebook: data pipeline and regression model

    A shallow embedding of the Python classes of
    [challenges/3-sentinel-maps/vegetation-prediction.ipynb]:
    [Dataset], [Dataloader] and [CNN_Regression], together with the small
    part of the Python, pandas, torch and Lightning behaviour that these
    classes rely on.

    Conventions.
    - A Python method is a computation [M S A] over the object [S] it is
      called on: it may read and replace the object and it either returns
      a value or raises.
    - Tensor contents are floating point numbers and are not represented:
      a tensor is represented by its shape.
    - The bodies left open in the notebook (the [TODO] lines) are embedded
      as they stand: a Python function that reaches its end without a
      [return] yields [None], and the literal [...] is the object
      [Ellipsis]. *)

From Stdlib Require Import ZArith Lia ZifyNat Ascii String.
From stdpp Require Import base option list strings.

Local Open Scope string_scope.
Local Open Scope list_scope.
Local Open Scope Z_scope.

(** ** Python outcomes, objects and methods *)

Inductive exn : Type :=
| IndexError
| FileNotFoundError
| RuntimeError
| ValueError.

Inductive result (A : Type) : Type :=
| Ok (a : A)
| Raise (e : exn).

Arguments Ok {A} a.
Arguments Raise {A} e.

Global Instance result_ret : MRet result := λ A a, Ok a.
Global Instance result_bind : MBind result := λ A B k r,
  match r with
  | Ok a => k a
  | Raise e => Raise e
  end.
Global Instance result_fmap : FMap result := λ A B f r,
  match r with
  | Ok a => Ok (f a)
  | Raise e => Raise e
  end.

(** A method of an object of type [S] with a result of type [A].  What has
    been assigned to the object before an exception is raised stays
    assigned. *)
Definition M (S A : Type) : Type := S → result A * S.

Global Instance M_ret {S} : MRet (M S) := λ A a s, (Ok a, s).
Global Instance M_bind {S} : MBind (M S) := λ A B k m s,
  match m s with
  | (Ok a, s') => k a s'
  | (Raise e, s') => (Raise e, s')
  end.

Definition get {S} : M S S := λ s, (Ok s, s).
Definition put {S} (s : S) : M S unit := λ _, (Ok tt, s).
Definition lift {S A} (r : result A) : M S A := λ s, (r, s).

(** What a method call on [s] returns, and the object it leaves. *)
Definition call {S A} (m : M S A) (s : S) : result A := (m s).1.
Definition after {S A} (m : M S A) (s : S) : S := (m s).2.

(** A tensor, known by its shape only. *)
Record tensor : Type := Tensor { size : list nat }.

Global Instance tensor_eq_dec : EqDecision tensor.
Proof. solve_decision. Defined.

(** The Python objects that the notebook's functions hand back. *)
#[warnings="-register-all"]
Inductive pyval : Type :=
| PyNone
| PyEllipsis
| PyTensor (t : tensor)
| PyTuple (items : list pyval).

(** [l[i]] on a Python list: a negative index counts from the end, an
    index outside [-len, len) raises [IndexError]. *)
Definition list_getitem {A} (l : list A) (i : Z) : result A :=
  let n := Z.of_nat (length l) in
  let j := if i <? 0 then i + n else i in
  if (0 <=? j) && (j <? n) then
    match l !! Z.to_nat j with
    | Some x => Ok x
    | None => Raise IndexError
    end
  else Raise IndexError.

(** [os.path.join(a, b)] on POSIX: an absolute [b] replaces [a]; otherwise
    the two are joined by one separator unless [a] is empty or already
    ends with it. *)
Fixpoint endswith_sep (s : string) : bool :=
  match s with
  | EmptyString => false
  | String c EmptyString => Ascii.eqb c "/"%char
  | String _ s' => endswith_sep s'
  end.

Definition path_join (a b : string) : string :=
  if String.prefix "/" b then b
  else if bool_decide (a = "") || endswith_sep a then a +:+ b
  else a +:+ "/" +:+ b.

(** ** class Dataset *)

Module Dataset.

Record t : Type := {
  data_dir : string;
  files : list string;
  seasons : list string;
  bands : list string;
  s2_path : string;
  veg_path : string;
  s2_bands : list string;
  veg_bands : list string
}.

Definition __init__ (data_dir : string) (files seasons bands : list string) : t :=
  {| data_dir := data_dir;
     files := files;
     seasons := seasons;
     bands := bands;
     s2_path := path_join data_dir "sentinel2-2020";
     veg_path := path_join data_dir "vegetation-2020";
     s2_bands := season ← seasons; band ← bands; [season +:+ "_" +:+ band];
     veg_bands := ["Percent_Tree_Cover_2020"] |}.

Definition __len__ : M t nat :=
  self ← get;
  mret (length (files self)).

(** The body stops after the two paths: nothing is opened, nothing is
    returned. *)
Definition __getitem__ (idx : Z) : M t pyval :=
  self ← get;
  f ← lift (list_getitem (files self) idx);
  let s2_path := path_join (s2_path self) (f +:+ ".tif") in
  f' ← lift (list_getitem (files self) idx);
  let veg_path := path_join (veg_path self) (f' +:+ ".tif") in
  mret PyNone.

End Dataset.

(** ** The split table

    [pd.read_csv] is the library's: the table enters as the rows it holds.
    Of a row only the two columns that the notebook reads are kept. *)

Module pandas.

Record row : Type := { identifier : string; split : string }.

Abbreviation DataFrame := (list row).

(** [df[df['split'] == value]['identifier'].tolist()] *)
Definition identifiers_where_split (df : DataFrame) (value : string) : list string :=
  identifier <$> filter (λ r, split r = value) df.

End pandas.

(** ** torch.utils.data.DataLoader

    The loader is the library's.  What is kept of it: the three arguments
    the notebook passes, what its constructor refuses, the order of the
    indices its sampler yields (in sequence, or in the order [randperm]
    drew when shuffling is on) and the grouping of that order into batches
    of [batch_size] by its batch sampler, the last one possibly shorter. *)

Module DataLoader.

Record t : Type := {
  dataset : Dataset.t;
  batch_size : Z;
  shuffle : bool
}.

(** [DataLoader(dataset, batch_size=..., shuffle=...)].  With shuffling
    on, the random sampler refuses a dataset without items; the batch
    sampler refuses a batch size that is not positive. *)
Definition __init__ (dataset : Dataset.t) (batch_size : Z) (shuffle : bool)
    : result t :=
  n ← call Dataset.__len__ dataset;
  if shuffle && (n =? 0)%nat then Raise ValueError
  else if batch_size <=? 0 then Raise ValueError
  else Ok {| dataset := dataset; batch_size := batch_size; shuffle := shuffle |}.

Section iteration.
Variable randperm : nat → list nat.

Definition sampler (self : t) : result (list nat) :=
  n ← call Dataset.__len__ (dataset self);
  mret (if shuffle self then randperm n else seq 0 n).

Fixpoint batch_sampler (size : Z) (batch : list nat) (indices : list nat)
  : list (list nat) :=
  match indices with
  | [] => match batch with [] => [] | _ => [batch] end
  | idx :: indices' =>
      let batch := batch ++ [idx] in
      if Z.of_nat (length batch) =? size
      then batch :: batch_sampler size [] indices'
      else batch_sampler size batch indices'
  end.

Definition batches (self : t) : result (list (list nat)) :=
  indices ← sampler self;
  mret (batch_sampler (batch_size self) [] indices).
End iteration.

End DataLoader.

(** ** class Dataloader *)

Module Dataloader.

Record t : Type := {
  data_dir : string;
  split_file : pandas.DataFrame;
  seasons : list string;
  bands : list string;
  batch_size : Z;
  train_files : list string;
  val_files : list string;
  test_files : list string;
  train_dataset : Dataset.t;
  val_dataset : Dataset.t;
  test_dataset : Dataset.t
}.

Definition __init__ (data_dir : string) (split_file : pandas.DataFrame)
    (seasons bands : list string) (batch_size : Z) : t :=
  let train_files := pandas.identifiers_where_split split_file "train" in
  let val_files := pandas.identifiers_where_split split_file "val" in
  let test_files := pandas.identifiers_where_split split_file "test" in
  {| data_dir := data_dir;
     split_file := split_file;
     seasons := seasons;
     bands := bands;
     batch_size := batch_size;
     train_files := train_files;
     val_files := val_files;
     test_files := test_files;
     train_dataset := Dataset.__init__ data_dir train_files seasons bands;
     val_dataset := Dataset.__init__ data_dir val_files seasons bands;
     test_dataset := Dataset.__init__ data_dir test_files seasons bands |}.

Definition train_dataloader : M t DataLoader.t :=
  self ← get;
  lift (DataLoader.__init__ (train_dataset self) (batch_size self) true).

Definition val_dataloader : M t DataLoader.t :=
  self ← get;
  lift (DataLoader.__init__ (val_dataset self) (batch_size self) false).

Definition test_dataloader : M t DataLoader.t :=
  self ← get;
  lift (DataLoader.__init__ (test_dataset self) (batch_size self) false).

End Dataloader.

(** ** torch.nn, on shapes

    Layers are the library's.  A layer is kept as the arguments it was
    built with, and applying it maps the shape of its input to the shape of
    its output or raises where torch rejects the input. *)

Module nn.

Local Open Scope nat_scope.

(** [padding = 0] and [dilation = 1], as everywhere in the notebook. *)
Record Conv2d : Type := {
  in_channels : nat;
  out_channels : nat;
  kernel_size : nat;
  stride : nat
}.

(** [stride] is left to its default, the kernel size. *)
Record MaxPool2d : Type := { pool_kernel_size : nat }.

Record Linear : Type := { in_features : nat; out_features : nat }.

Inductive Loss : Type := MSELoss.

Inductive activation : Type := relu | elu.

(** Positions of a window of [k] cells moved by [s] over [h] cells. *)
Definition window_out (h k s : nat) : result nat :=
  if (k <=? h) && (0 <? s) then Ok ((h - k) / s + 1) else Raise RuntimeError.

(** A convolution wants an input with its number of channels, and that
    number positive: an input without channels is refused. *)
Definition conv2d (c : Conv2d) (x : tensor) : result tensor :=
  match size x with
  | [n; ch; h; w] =>
      if (0 <? in_channels c) && (ch =? in_channels c) then
        h' ← window_out h (kernel_size c) (stride c);
        w' ← window_out w (kernel_size c) (stride c);
        mret (Tensor [n; out_channels c; h'; w'])
      else Raise RuntimeError
  | [ch; h; w] =>
      if (0 <? in_channels c) && (ch =? in_channels c) then
        h' ← window_out h (kernel_size c) (stride c);
        w' ← window_out w (kernel_size c) (stride c);
        mret (Tensor [out_channels c; h'; w'])
      else Raise RuntimeError
  | _ => Raise RuntimeError
  end.

Definition max_pool2d (p : MaxPool2d) (x : tensor) : result tensor :=
  match size x with
  | [n; ch; h; w] =>
      h' ← window_out h (pool_kernel_size p) (pool_kernel_size p);
      w' ← window_out w (pool_kernel_size p) (pool_kernel_size p);
      mret (Tensor [n; ch; h'; w'])
  | [ch; h; w] =>
      h' ← window_out h (pool_kernel_size p) (pool_kernel_size p);
      w' ← window_out w (pool_kernel_size p) (pool_kernel_size p);
      mret (Tensor [ch; h'; w'])
  | _ => Raise RuntimeError
  end.

(** Both activations work element by element. *)
Definition activate (f : activation) (x : tensor) : tensor := x.

Definition numel (x : tensor) : nat := foldr Nat.mul 1 (size x).

(** [x.view(rows, -1)] *)
Definition view_rows (x : tensor) (rows : nat) : result tensor :=
  if (0 <? rows) && (numel x mod rows =? 0)
  then Ok (Tensor [rows; numel x / rows])
  else Raise RuntimeError.

(** The parameters a layer registers: a weight and, [bias] being left to
    its default, a bias. *)
Definition conv2d_parameters (c : Conv2d) : list tensor :=
  [ Tensor [out_channels c; in_channels c; kernel_size c; kernel_size c];
    Tensor [out_channels c] ].

Definition linear_parameters (l : Linear) : list tensor :=
  [ Tensor [out_features l; in_features l]; Tensor [out_features l] ].

End nn.

(** ** class CNN_Regression

    [float] stands for Python's floating point numbers, with [nonneg] their
    test [0.0 <= x], and [W] for the values held by the parameters of the
    layers.  Besides its attributes
    the module carries those values ([weights]) and what [self.log] has
    been given so far ([logged]).  Left out: [save_hyperparameters], which
    is bookkeeping of the framework. *)

Module CNN_Regression.

Section with_numbers.
Context {float W : Type}.

(** [0.0 <= x] on floating point numbers; it fails for a NaN. *)
Variable nonneg : float → bool.

Record t : Type := {
  input_shape : list nat;
  input_channels : nat;
  output_dim : nat;
  learning_rate : float;
  conv1 : nn.Conv2d;
  conv2 : nn.Conv2d;
  conv3 : nn.Conv2d;
  conv4 : nn.Conv2d;
  activation_fn : nn.activation;
  output_activation_fn : nn.activation;
  pool1 : nn.MaxPool2d;
  pool2 : nn.MaxPool2d;
  (* assigned last in __init__, None until then *)
  fc1 : option nn.Linear;
  fc2 : option nn.Linear;
  fc3 : option nn.Linear;
  output_layer : option nn.Linear;
  criterion : option nn.Loss;
  (* state kept by the framework *)
  weights : W;
  logged : list (string * pyval)
}.

Record Adam : Type := { params : W; lr : float }.

Definition batch : Type := tensor * tensor.

Definition set_head (self : t) (l1 l2 l3 out : nn.Linear) (loss : nn.Loss) : t :=
  {| input_shape := input_shape self;
     input_channels := input_channels self;
     output_dim := output_dim self;
     learning_rate := learning_rate self;
     conv1 := conv1 self;
     conv2 := conv2 self;
     conv3 := conv3 self;
     conv4 := conv4 self;
     activation_fn := activation_fn self;
     output_activation_fn := output_activation_fn self;
     pool1 := pool1 self;
     pool2 := pool2 self;
     fc1 := Some l1;
     fc2 := Some l2;
     fc3 := Some l3;
     output_layer := Some out;
     criterion := Some loss;
     weights := weights self;
     logged := logged self |}.

Definition set_logged (self : t) (entries : list (string * pyval)) : t :=
  {| input_shape := input_shape self;
     input_channels := input_channels self;
     output_dim := output_dim self;
     learning_rate := learning_rate self;
     conv1 := conv1 self;
     conv2 := conv2 self;
     conv3 := conv3 self;
     conv4 := conv4 self;
     activation_fn := activation_fn self;
     output_activation_fn := output_activation_fn self;
     pool1 := pool1 self;
     pool2 := pool2 self;
     fc1 := fc1 self;
     fc2 := fc2 self;
     fc3 := fc3 self;
     output_layer := output_layer self;
     criterion := criterion self;
     weights := weights self;
     logged := entries |}.

(** [self.log(name, value, ...)]: the framework logs numbers, that is
    here tensors of one element, and raises for every other value. *)
Definition log (name : string) (value : pyval) : M t unit :=
  self ← get;
  match value with
  | PyTensor v =>
      if (nn.numel v =? 1)%nat
      then put (set_logged self (logged self ++ [(name, value)]))
      else lift (Raise ValueError)
  | _ => lift (Raise ValueError)
  end.

Definition feature_extractor (x : tensor) : M t tensor :=
  self ← get;
  x ← lift (nn.conv2d (conv1 self) x);
  let x := nn.activate (activation_fn self) x in
  x ← lift (nn.conv2d (conv2 self) x);
  x ← lift (nn.max_pool2d (pool1 self) (nn.activate (activation_fn self) x));
  x ← lift (nn.conv2d (conv3 self) x);
  let x := nn.activate (activation_fn self) x in
  x ← lift (nn.conv2d (conv4 self) x);
  x ← lift (nn.max_pool2d (pool2 self) (nn.activate (activation_fn self) x));
  mret x.

Definition _get_output_shape (shape : list nat) : M t nat :=
  let batch_size := 1%nat in
  let input := Tensor (batch_size :: shape) in
  output_feature ← feature_extractor input;
  flat ← lift (nn.view_rows output_feature batch_size);
  hidden_dim ← lift (list_getitem (size flat) 1);
  mret hidden_dim.

(** The initial parameter values are drawn by torch; they enter as
    [init]. *)
Definition __init__ (input_shape : list nat) (learning_rate : float)
    (output_dim : nat) (init : W) : result t :=
  input_channels ← list_getitem input_shape 0;
  let self :=
    {| input_shape := input_shape;
       input_channels := input_channels;
       output_dim := output_dim;
       learning_rate := learning_rate;
       conv1 := {| nn.in_channels := input_channels; nn.out_channels := 32;
                   nn.kernel_size := 3; nn.stride := 1 |};
       conv2 := {| nn.in_channels := 32; nn.out_channels := 32;
                   nn.kernel_size := 3; nn.stride := 2 |};
       conv3 := {| nn.in_channels := 32; nn.out_channels := 64;
                   nn.kernel_size := 3; nn.stride := 2 |};
       conv4 := {| nn.in_channels := 64; nn.out_channels := 64;
                   nn.kernel_size := 3; nn.stride := 2 |};
       activation_fn := nn.relu;
       output_activation_fn := nn.elu;
       pool1 := {| nn.pool_kernel_size := 2 |};
       pool2 := {| nn.pool_kernel_size := 2 |};
       fc1 := None;
       fc2 := None;
       fc3 := None;
       output_layer := None;
       criterion := None;
       weights := init;
       logged := [] |} in
  match _get_output_shape input_shape self with
  | (Ok hidden_dim, self) =>
      Ok (set_head self
            {| nn.in_features := hidden_dim; nn.out_features := 512 |}
            {| nn.in_features := 512; nn.out_features := 256 |}
            {| nn.in_features := 256; nn.out_features := 128 |}
            {| nn.in_features := 128; nn.out_features := output_dim |}
            nn.MSELoss)
  | (Raise e, _) => Raise e
  end.

(** [torch.optim.Adam] refuses a learning rate for which [0.0 <= lr]
    fails. *)
Definition configure_optimizers : M t Adam :=
  self ← get;
  optimizer ← lift (if nonneg (learning_rate self)
                    then Ok {| params := weights self;
                               lr := learning_rate self |}
                    else Raise ValueError);
  mret optimizer.

(** The regression head is left open: the flattened features are
    returned as they are. *)
Definition forward (x : tensor) : M t tensor :=
  x ← feature_extractor x;
  rows ← lift (list_getitem (size x) 0);
  x ← lift (nn.view_rows x rows);
  mret x.

(** Both right-hand sides are the literal [...]. *)
Definition compute_loss (b : batch) : M t pyval :=
  let '(input, labels) := b in
  let predictions := PyEllipsis in
  let loss := PyEllipsis in
  mret loss.

Definition training_step (b : batch) (batch_idx : nat) : M t pyval :=
  loss ← compute_loss b;
  _ ← log "train_loss" loss;
  mret loss.

Definition validation_step (b : batch) (batch_idx : nat) : M t pyval :=
  loss ← compute_loss b;
  _ ← log "val_loss" loss;
  mret loss.

Definition test_step (b : batch) (batch_idx : nat) : M t pyval :=
  loss ← compute_loss b;
  _ ← log "test_loss" loss;
  mret loss.

(** [self.parameters()]: the parameters of the layers assigned so far, in
    the order of assignment; the pooling layers and the criterion have
    none.  Each is created with [requires_grad] set. *)
Definition parameters : M t (list tensor) :=
  self ← get;
  mret (nn.conv2d_parameters (conv1 self)
        ++ nn.conv2d_parameters (conv2 self)
        ++ nn.conv2d_parameters (conv3 self)
        ++ nn.conv2d_parameters (conv4 self)
        ++ from_option nn.linear_parameters [] (fc1 self)
        ++ from_option nn.linear_parameters [] (fc2 self)
        ++ from_option nn.linear_parameters [] (fc3 self)
        ++ from_option nn.linear_parameters [] (output_layer self)).

Definition _get_number_parameters : M t nat :=
  ps ← parameters;
  mret (sum_list (nn.numel <$> ps)).

End with_numbers.

Arguments t : clear implicits.
Arguments Adam : clear implicits.

End CNN_Regression.

(** ** What the properties below speak of *)

(** An item as the pipeline expects it from the dataset: a pair of an
    image tensor with [channels] channels (channels, height, width) and a
    label tensor without dimensions, that is one number. *)
Definition is_item (channels : nat) (v : pyval) : bool :=
  match v with
  | PyTuple [PyTensor img; PyTensor label] =>
      match size img with
      | [c; _; _] => bool_decide (c = channels) && bool_decide (size label = [])
      | _ => false
      end
  | _ => false
  end.

(** The image file and the label file of the tile at [idx], under the
    names [__getitem__] builds for them. *)
Definition tile_paths (self : Dataset.t) (idx : Z) : result (string * string) :=
  f ← list_getitem (Dataset.files self) idx;
  mret (path_join (Dataset.s2_path self) (f +:+ ".tif"),
        path_join (Dataset.veg_path self) (f +:+ ".tif")).

(** The files present on disk, and a path that is not among them. *)
Definition missing (disk : list string) (path : string) : bool :=
  bool_decide (path ∉ disk).

(** The dataset object after [__getitem__] has been called with each of
    [idxs] in turn, whether a call returned or raised. *)
Definition after_getitems (idxs : list Z) (self : Dataset.t) : Dataset.t :=
  foldl (λ self idx, after (Dataset.__getitem__ idx) self) self idxs.

(** The split values the constructor of [Dataloader] looks for. *)
Definition split_names : list string := ["train"; "val"; "test"].

(** A table that is a split assignment: every identifier has one split (a
    table is a mapping), and that split is one of the three. *)
Definition is_mapping (df : pandas.DataFrame) : Prop :=
  Forall (λ r1, Forall (λ r2,
    pandas.identifier r1 = pandas.identifier r2 →
    pandas.split r1 = pandas.split r2) df) df.

Definition is_split_assignment (df : pandas.DataFrame) : Prop :=
  is_mapping df ∧ Forall (λ r, pandas.split r ∈ split_names) df.

(** A number, as a loss is one: a tensor without dimensions. *)
Definition is_number (v : pyval) : bool :=
  match v with
  | PyTensor t => bool_decide (size t = [])
  | _ => false
  end.

(** Whether the character [c] occurs in [s]. *)
Fixpoint has_char (c : Ascii.ascii) (s : string) : bool :=
  match s with
  | EmptyString => false
  | String c' s' => Ascii.eqb c' c || has_char c s'
  end.

(** The identifiers of the rows whose split value is none of the three. *)
Definition other_identifiers (df : pandas.DataFrame) : list string :=
  pandas.identifier <$> filter (λ r, pandas.split r ∉ split_names) df.

(** The sizes of the batches that [n] items give at batch size [size]:
    full batches, then what is left, if anything. *)
Definition batch_lengths (size n : nat) : list nat :=
  replicate (n / size) size
  ++ (if (n mod size =? 0)%nat then [] else [(n mod size)%nat]).

(** The three loader methods of [Dataloader], each with the identifier
    list its dataset is built from and with the shuffling it asks for. *)
Definition loaders (self : Dataloader.t)
    : list (M Dataloader.t DataLoader.t * list string * bool) :=
  [ (Dataloader.train_dataloader, Dataloader.train_files self, true);
    (Dataloader.val_dataloader, Dataloader.val_files self, false);
    (Dataloader.test_dataloader, Dataloader.test_files self, false) ].

(** The three hooks the framework calls with a batch, and the module after
    it has called them as [steps] lists them. *)
Inductive hook : Type := training | validation | testing.

Definition run_hook {float W} (k : hook) (b : CNN_Regression.batch)
    (batch_idx : nat) : M (CNN_Regression.t float W) pyval :=
  match k with
  | training => CNN_Regression.training_step b batch_idx
  | validation => CNN_Regression.validation_step b batch_idx
  | testing => CNN_Regression.test_step b batch_idx
  end.

Definition after_hooks {float W}
    (steps : list (hook * CNN_Regression.batch * nat))
    (self : CNN_Regression.t float W) : CNN_Regression.t float W :=
  foldl (λ self '(k, b, batch_idx), after (run_hook k b batch_idx) self)
        self steps.

(** A drawn order that reverses the sequence. *)
Definition reversed (n : nat) : list nat := rev (seq 0 n).

(** ** Example tables *)

Definition example_splits : pandas.DataFrame :=
  [ {| pandas.identifier := "tile_a"; pandas.split := "train" |};
    {| pandas.identifier := "tile_b"; pandas.split := "val" |};
    {| pandas.identifier := "tile_c"; pandas.split := "train" |};
    {| pandas.identifier := "tile_d"; pandas.split := "test" |} ].

Definition holdout_row : pandas.row :=
  {| pandas.identifier := "tile_b"; pandas.split := "holdout" |}.

Definition rows_before : pandas.DataFrame :=
  [ {| pandas.identifier := "tile_a"; pandas.split := "train" |} ].

Definition rows_after : pandas.DataFrame :=
  [ {| pandas.identifier := "tile_c"; pandas.split := "test" |} ].

(** * Properties *)

(** ** Python lists *)

Section list_getitem.
Context {A : Type}.
Implicit Types (l : list A) (i : Z) (x : A).

Lemma list_getitem_nonneg l i :
  0 ≤ i < Z.of_nat (length l) →
  ∃ x, l !! Z.to_nat i = Some x ∧ list_getitem l i = Ok x.
Proof.
  intros Hi. unfold list_getitem.
  destruct (Z.ltb_spec i 0) as [?|_]; [lia|].
  destruct (Z.leb_spec 0 i) as [_|?]; [|lia].
  destruct (Z.ltb_spec i (Z.of_nat (length l))) as [_|?]; [|lia].
  destruct (lookup_lt_is_Some_2 l (Z.to_nat i)) as [x Hx]; [lia|].
  exists x. by rewrite Hx.
Qed.

Lemma list_getitem_Ok l i x : list_getitem l i = Ok x → x ∈ l.
Proof.
  unfold list_getitem.
  destruct (_ && _); [|done].
  destruct (l !! _) as [y|] eqn:Hy; [|done].
  intros [= <-]. by eapply list_elem_of_lookup_2.
Qed.

Lemma list_getitem_outcome l i :
  (∃ x, list_getitem l i = Ok x) ∨ list_getitem l i = Raise IndexError.
Proof.
  unfold list_getitem.
  destruct (_ && _); [|by right].
  destruct (l !! _) as [y|]; [left; by exists y|by right].
Qed.
End list_getitem.

(** ** Dataset *)

Lemma s2_bands_length data_dir files seasons bands :
  length (Dataset.s2_bands (Dataset.__init__ data_dir files seasons bands))
  = (length seasons * length bands)%nat.
Proof.
  cbn. induction seasons as [|season seasons IH]; [done|].
  cbn. rewrite length_app, IH. f_equal.
  clear IH. induction bands as [|band bands IH]; [done|].
  cbn. by rewrite IH.
Qed.

Lemma getitem_outcome idx self :
  Dataset.__getitem__ idx self = (Ok PyNone, self)
  ∨ Dataset.__getitem__ idx self = (Raise IndexError, self).
Proof.
  unfold Dataset.__getitem__, mbind, M_bind, get, lift; cbn.
  destruct (list_getitem_outcome (Dataset.files self) idx) as [[x ->]| ->];
    [by left|by right].
Qed.

Lemma getitem_in_range idx self :
  0 ≤ idx < Z.of_nat (length (Dataset.files self)) →
  Dataset.__getitem__ idx self = (Ok PyNone, self).
Proof.
  intros Hi. unfold Dataset.__getitem__, mbind, M_bind, get, lift; cbn.
  destruct (list_getitem_nonneg (Dataset.files self) idx Hi) as (x & _ & ->).
  done.
Qed.

Lemma getitem_keeps_self idx self : after (Dataset.__getitem__ idx) self = self.
Proof.
  unfold after. by destruct (getitem_outcome idx self) as [-> | ->].
Qed.

Lemma after_getitems_id idxs self : after_getitems idxs self = self.
Proof.
  unfold after_getitems. revert self.
  induction idxs as [|idx idxs IH]; intros self; [done|].
  cbn. rewrite getitem_keeps_self. apply IH.
Qed.

Lemma getitem_never_FileNotFound idx self :
  call (Dataset.__getitem__ idx) self ≠ Raise FileNotFoundError.
Proof.
  unfold call. by destruct (getitem_outcome idx self) as [-> | ->].
Qed.

(** C1.  [Dataset.__getitem__] is to return an image tensor with
    (number of seasons x number of bands) channels and one finite label.
    On a dataset with two seasons and three bands the constructor does
    prepare the six channel names, but [__getitem__] for the first tile
    returns [None], which is no such item. *)
Theorem C1_getitem_returns_no_item :
  let ds := Dataset.__init__ "data" ["tile_a"; "tile_b"]
              ["spring"; "summer"] ["B04"; "B08"; "B11"] in
  length (Dataset.s2_bands ds) = 6%nat
  ∧ Dataset.__getitem__ 0 ds = (Ok PyNone, ds)
  ∧ is_item 6 PyNone = false.
Proof.
  intros ds. split; [apply s2_bands_length|].
  split; [|done]. by apply getitem_in_range.
Qed.

(** C2.  [Dataset.__getitem__] is to read the requested channels and the
    label raster and to return a (tensor, scalar) pair.  For each of the
    three tiles of this dataset it returns [None] instead. *)
Theorem C2_getitem_returns_none_for_every_tile :
  let ds := Dataset.__init__ "data" ["tile_a"; "tile_b"; "tile_c"]
              ["spring"] ["B04"] in
  Forall (λ idx, call (Dataset.__getitem__ idx) ds = Ok PyNone) [0; 1; 2].
Proof.
  intros ds. repeat constructor; unfold call; by rewrite getitem_in_range.
Qed.

(** C8.  With a missing image or label file [Dataset.__getitem__] is to
    fail with FileNotFound.  Here nothing is on disk, so both files of the
    first tile are missing, and [__getitem__] returns [None] all the same:
    it does not depend on the disk. *)
Theorem C8_getitem_with_files_missing :
  let ds := Dataset.__init__ "data" ["tile_a"] ["spring"] ["B04"] in
  let disk : list string := [] in
  tile_paths ds 0
    = Ok ("data/sentinel2-2020/tile_a.tif", "data/vegetation-2020/tile_a.tif")
  ∧ missing disk "data/sentinel2-2020/tile_a.tif" = true
  ∧ missing disk "data/vegetation-2020/tile_a.tif" = true
  ∧ Dataset.__getitem__ 0 ds = (Ok PyNone, ds).
Proof.
  intros ds disk. split; [done|]. split; [done|]. split; [done|].
  by apply getitem_in_range.
Qed.

(** C10.  For a dataset built from the identifier list [files],
    [len(dataset)] is the length of [files], and it still is after
    [__getitem__] has been called any number of times, with any indices. *)
Theorem C10_len_is_number_of_files data_dir files seasons bands (idxs : list Z) :
  let ds := Dataset.__init__ data_dir files seasons bands in
  call Dataset.__len__ ds = Ok (length files)
  ∧ call Dataset.__len__ (after_getitems idxs ds) = Ok (length files).
Proof.
  intros ds. by rewrite after_getitems_id.
Qed.

(** ** Dataloader *)

(** Membership of a literal in a literal list. *)
Local Ltac in_names := unfold split_names; repeat constructor.

Lemma elem_of_identifiers_where_split df value x :
  x ∈ pandas.identifiers_where_split df value
  ↔ ∃ r, r ∈ df ∧ pandas.identifier r = x ∧ pandas.split r = value.
Proof.
  unfold pandas.identifiers_where_split.
  rewrite list_elem_of_fmap. split.
  - intros (r & -> & Hr). apply list_elem_of_filter in Hr as [? ?]. eauto.
  - intros (r & Hr & <- & Hv). exists r. split; [done|].
    by apply list_elem_of_filter.
Qed.

Lemma is_mapping_split df r1 r2 :
  is_mapping df → r1 ∈ df → r2 ∈ df →
  pandas.identifier r1 = pandas.identifier r2 → pandas.split r1 = pandas.split r2.
Proof.
  intros Hmap H1 H2. unfold is_mapping in Hmap.
  rewrite Forall_forall in Hmap. specialize (Hmap r1 H1).
  rewrite Forall_forall in Hmap. by apply Hmap.
Qed.

Lemma identifiers_where_split_disjoint df v1 v2 x :
  is_mapping df → v1 ≠ v2 →
  x ∈ pandas.identifiers_where_split df v1 →
  x ∉ pandas.identifiers_where_split df v2.
Proof.
  intros Hmap Hne H1 H2.
  apply elem_of_identifiers_where_split in H1 as (r1 & Hr1 & Hid1 & Hs1).
  apply elem_of_identifiers_where_split in H2 as (r2 & Hr2 & Hid2 & Hs2).
  apply Hne. rewrite <- Hs1, <- Hs2.
  apply (is_mapping_split df); [done..|congruence].
Qed.

(** A row with another split value adds nothing to any of the lists. *)
Lemma identifiers_where_split_drop l1 r l2 value :
  pandas.split r ≠ value →
  pandas.identifiers_where_split (l1 ++ r :: l2) value
  = pandas.identifiers_where_split (l1 ++ l2) value.
Proof.
  intros Hne. unfold pandas.identifiers_where_split.
  rewrite !filter_app, filter_cons. by case_decide.
Qed.

(** Counting multiplicities: the three lists together are the identifier
    column, rearranged. *)
Lemma identifiers_where_split_perm df :
  Forall (λ r, pandas.split r ∈ split_names) df →
  pandas.identifiers_where_split df "train"
    ++ pandas.identifiers_where_split df "val"
    ++ pandas.identifiers_where_split df "test"
  ≡ₚ pandas.identifier <$> df.
Proof.
  unfold pandas.identifiers_where_split.
  induction 1 as [|r df Hr _ IH]; [done|].
  rewrite !filter_cons. cbn [fmap list_fmap].
  unfold split_names in Hr.
  apply elem_of_cons in Hr as [->|Hr]; [|apply elem_of_cons in Hr as [->|Hr]];
    [| |apply list_elem_of_singleton in Hr as ->];
    repeat case_decide; try done; cbn [fmap list_fmap app].
  - by f_equiv.
  - rewrite <- Permutation_middle. by f_equiv.
  - rewrite app_assoc, <- Permutation_middle, <- app_assoc. by f_equiv.
Qed.

(** C3.  For every split assignment (a table that maps each identifier to
    one of train, val, test) the three identifier lists built by the
    constructor of [Dataloader] are pairwise disjoint, and an identifier is
    in the table exactly when it is in one of the three lists. *)
Theorem C3_splits_partition_identifiers data_dir df seasons bands batch_size :
  is_split_assignment df →
  let dl := Dataloader.__init__ data_dir df seasons bands batch_size in
  (∀ x, x ∈ Dataloader.train_files dl → x ∉ Dataloader.val_files dl)
  ∧ (∀ x, x ∈ Dataloader.train_files dl → x ∉ Dataloader.test_files dl)
  ∧ (∀ x, x ∈ Dataloader.val_files dl → x ∉ Dataloader.test_files dl)
  ∧ (∀ x, x ∈ pandas.identifier <$> df
          ↔ x ∈ Dataloader.train_files dl
            ∨ x ∈ Dataloader.val_files dl
            ∨ x ∈ Dataloader.test_files dl).
Proof.
  intros [Hmap Hnames] dl. subst dl. unfold Dataloader.__init__.
  cbn [Dataloader.train_files Dataloader.val_files Dataloader.test_files].
  split; [|split; [|split]].
  - intros x. by apply identifiers_where_split_disjoint.
  - intros x. by apply identifiers_where_split_disjoint.
  - intros x. by apply identifiers_where_split_disjoint.
  - intros x. rewrite <- (identifiers_where_split_perm df Hnames).
    by rewrite !elem_of_app.
Qed.

Lemma C3_splits_partition_identifiers_witness :
  is_split_assignment example_splits
  ∧ let dl := Dataloader.__init__ "data" example_splits ["spring"] ["B04"] 2 in
    (∀ x, x ∈ Dataloader.train_files dl → x ∉ Dataloader.val_files dl)
    ∧ (∀ x, x ∈ Dataloader.train_files dl → x ∉ Dataloader.test_files dl)
    ∧ (∀ x, x ∈ Dataloader.val_files dl → x ∉ Dataloader.test_files dl)
    ∧ (∀ x, x ∈ pandas.identifier <$> example_splits
            ↔ x ∈ Dataloader.train_files dl
              ∨ x ∈ Dataloader.val_files dl
              ∨ x ∈ Dataloader.test_files dl).
Proof.
  assert (H : is_split_assignment example_splits).
  { unfold is_split_assignment, is_mapping.
    apply (bool_decide_eq_true_1 _). vm_compute. reflexivity. }
  split; [exact H|].
  exact (C3_splits_partition_identifiers "data" example_splits
           ["spring"] ["B04"] 2 H).
Defined.

(** C9.  A row whose split value is none of train, val, test is dropped by
    the constructor of [Dataloader], which cannot raise: each of the three
    datasets is the one the table without that row gives.  Hence, in a
    table that is a mapping, the identifier of the row is among the files
    of none of the three datasets and no index of them addresses it. *)
Theorem C9_unknown_split_row_is_dropped data_dir l1 r l2 seasons bands batch_size :
  pandas.split r ∉ split_names →
  let dl := Dataloader.__init__ data_dir (l1 ++ r :: l2) seasons bands batch_size in
  let dl' := Dataloader.__init__ data_dir (l1 ++ l2) seasons bands batch_size in
  Dataloader.train_dataset dl = Dataloader.train_dataset dl'
  ∧ Dataloader.val_dataset dl = Dataloader.val_dataset dl'
  ∧ Dataloader.test_dataset dl = Dataloader.test_dataset dl'
  ∧ (is_mapping (l1 ++ r :: l2) →
     Forall (λ ds,
       (pandas.identifier r ∉ Dataset.files ds)
       ∧ (∀ idx, list_getitem (Dataset.files ds) idx ≠ Ok (pandas.identifier r)))
       [Dataloader.train_dataset dl; Dataloader.val_dataset dl;
        Dataloader.test_dataset dl]).
Proof.
  intros Hr dl dl'. subst dl dl'. unfold Dataloader.__init__.
  cbn [Dataloader.train_dataset Dataloader.val_dataset Dataloader.test_dataset].
  assert (Hne : ∀ value, value ∈ split_names → pandas.split r ≠ value)
    by (intros value Hv Heq; apply Hr; by rewrite Heq).
  assert (Hnot : is_mapping (l1 ++ r :: l2) → ∀ value, value ∈ split_names →
            pandas.identifier r
              ∉ pandas.identifiers_where_split (l1 ++ r :: l2) value).
  { intros Hmap value Hv Hin.
    apply elem_of_identifiers_where_split in Hin as (r' & Hr' & Hid & Hs).
    apply (Hne value Hv). rewrite <- Hs. symmetry.
    apply (is_mapping_split (l1 ++ r :: l2)); [done..| |done].
    apply elem_of_app. right. by left. }
  split; [|split; [|split]].
  - by rewrite identifiers_where_split_drop by (apply Hne; in_names).
  - by rewrite identifiers_where_split_drop by (apply Hne; in_names).
  - by rewrite identifiers_where_split_drop by (apply Hne; in_names).
  - intros Hmap.
    repeat apply Forall_cons_2; [..|apply Forall_nil_2];
      cbn [Dataset.__init__ Dataset.files];
      (split; [apply (Hnot Hmap); in_names
              |intros idx Hidx%list_getitem_Ok; revert Hidx;
               apply (Hnot Hmap); in_names]).
Qed.

Lemma C9_unknown_split_row_is_dropped_witness :
  (pandas.split holdout_row ∉ split_names)
  ∧ is_mapping (rows_before ++ holdout_row :: rows_after)
  ∧ let dl := Dataloader.__init__ "data"
                (rows_before ++ holdout_row :: rows_after) ["spring"] ["B04"] 2 in
    let dl' := Dataloader.__init__ "data"
                 (rows_before ++ rows_after) ["spring"] ["B04"] 2 in
    Dataloader.train_dataset dl = Dataloader.train_dataset dl'
    ∧ Dataloader.val_dataset dl = Dataloader.val_dataset dl'
    ∧ Dataloader.test_dataset dl = Dataloader.test_dataset dl'
    ∧ Forall (λ ds,
        (pandas.identifier holdout_row ∉ Dataset.files ds)
        ∧ (∀ idx, list_getitem (Dataset.files ds) idx
                  ≠ Ok (pandas.identifier holdout_row)))
        [Dataloader.train_dataset dl; Dataloader.val_dataset dl;
         Dataloader.test_dataset dl].
Proof.
  assert (H : pandas.split holdout_row ∉ split_names).
  { apply (bool_decide_eq_true_1 _). vm_compute. reflexivity. }
  assert (Hmap : is_mapping (rows_before ++ holdout_row :: rows_after)).
  { unfold is_mapping. apply (bool_decide_eq_true_1 _). vm_compute.
    reflexivity. }
  split; [exact H|]. split; [exact Hmap|].
  destruct (C9_unknown_split_row_is_dropped "data" rows_before holdout_row
              rows_after ["spring"] ["B04"] 2 H) as (Ht & Hv & Hs & Hnone).
  exact (conj Ht (conj Hv (conj Hs (Hnone Hmap)))).
Defined.

(** ** The loaders *)

Lemma batch_sampler_concat size batch indices :
  concat (DataLoader.batch_sampler size batch indices) = batch ++ indices.
Proof.
  revert batch. induction indices as [|idx indices IH]; intros batch.
  - destruct batch; cbn; [done|]. by rewrite !app_nil_r.
  - cbn [DataLoader.batch_sampler]. destruct (_ =? _).
    + cbn [concat]. rewrite IH. by rewrite <- app_assoc.
    + rewrite IH. by rewrite <- app_assoc.
Qed.

Lemma sampler_in_order randperm ds batch_size :
  DataLoader.sampler randperm
    {| DataLoader.dataset := ds; DataLoader.batch_size := batch_size;
       DataLoader.shuffle := false |}
  = Ok (seq 0 (length (Dataset.files ds))).
Proof. done. Qed.

Lemma sampler_shuffled randperm ds batch_size :
  DataLoader.sampler randperm
    {| DataLoader.dataset := ds; DataLoader.batch_size := batch_size;
       DataLoader.shuffle := true |}
  = Ok (randperm (length (Dataset.files ds))).
Proof. done. Qed.

Lemma loader_init_run ds batch_size shuffle :
  DataLoader.__init__ ds batch_size shuffle
  = if shuffle && (length (Dataset.files ds) =? 0)%nat || (batch_size <=? 0)
    then Raise ValueError
    else Ok {| DataLoader.dataset := ds; DataLoader.batch_size := batch_size;
               DataLoader.shuffle := shuffle |}.
Proof.
  unfold DataLoader.__init__.
  change (call Dataset.__len__ ds) with (Ok (length (Dataset.files ds))).
  cbn [mbind result_bind].
  by destruct (shuffle && _), (batch_size <=? 0).
Qed.

(** C4.  [train_dataloader] asks for its loader with shuffling on,
    [val_dataloader] and [test_dataloader] ask for theirs with shuffling
    off; the constructor of the loader refuses a batch size that is not
    positive and, with shuffling on, a split without tiles, and otherwise
    returns the loader asked for.  So whatever order [randperm] draws, the
    samplers of the validation and the test loader yield the items of
    their dataset in the order of its identifier list, also once grouped
    into batches, and only the sampler of the train loader follows the
    drawn order. *)
Theorem C4_only_train_loader_shuffles data_dir df seasons bands batch_size
    (randperm : nat → list nat) :
  let self := Dataloader.__init__ data_dir df seasons bands batch_size in
  let ordered ds :=
    {| DataLoader.dataset := ds; DataLoader.batch_size := batch_size;
       DataLoader.shuffle := false |} in
  let shuffled ds :=
    {| DataLoader.dataset := ds; DataLoader.batch_size := batch_size;
       DataLoader.shuffle := true |} in
  call Dataloader.train_dataloader self
    = (if (length (Dataloader.train_files self) =? 0)%nat || (batch_size <=? 0)
       then Raise ValueError
       else Ok (shuffled (Dataloader.train_dataset self)))
  ∧ call Dataloader.val_dataloader self
    = (if batch_size <=? 0 then Raise ValueError
       else Ok (ordered (Dataloader.val_dataset self)))
  ∧ call Dataloader.test_dataloader self
    = (if batch_size <=? 0 then Raise ValueError
       else Ok (ordered (Dataloader.test_dataset self)))
  ∧ DataLoader.sampler randperm (shuffled (Dataloader.train_dataset self))
    = Ok (randperm (length (Dataloader.train_files self)))
  ∧ DataLoader.sampler randperm (ordered (Dataloader.val_dataset self))
    = Ok (seq 0 (length (Dataloader.val_files self)))
  ∧ DataLoader.sampler randperm (ordered (Dataloader.test_dataset self))
    = Ok (seq 0 (length (Dataloader.test_files self)))
  ∧ @concat nat <$> DataLoader.batches randperm (ordered (Dataloader.val_dataset self))
    = Ok (seq 0 (length (Dataloader.val_files self)))
  ∧ @concat nat <$> DataLoader.batches randperm (ordered (Dataloader.test_dataset self))
    = Ok (seq 0 (length (Dataloader.test_files self))).
Proof.
  intros self ordered shuffled.
  split; [|split; [|split]].
  - unfold call, Dataloader.train_dataloader, mbind, M_bind, get, lift.
    cbn [fst]. by rewrite loader_init_run.
  - unfold call, Dataloader.val_dataloader, mbind, M_bind, get, lift.
    cbn [fst]. by rewrite loader_init_run.
  - unfold call, Dataloader.test_dataloader, mbind, M_bind, get, lift.
    cbn [fst]. by rewrite loader_init_run.
  - repeat split; try done;
      unfold DataLoader.batches; subst ordered; cbv beta;
      rewrite sampler_in_order;
      cbn; by rewrite batch_sampler_concat.
Qed.

(** ** CNN_Regression *)

Section model.
Context {float W : Type}.
Implicit Types (self m : CNN_Regression.t float W) (b : CNN_Regression.batch).

Lemma compute_loss_ellipsis self b :
  CNN_Regression.compute_loss b self = (Ok PyEllipsis, self).
Proof. by destruct b. Qed.

(** A step hands the [Ellipsis] of [compute_loss] to [self.log], which
    raises: the step raises, and the module stays as it was. *)
Lemma training_step_run self b idx :
  CNN_Regression.training_step b idx self = (Raise ValueError, self).
Proof. by destruct b. Qed.

Lemma validation_step_run self b idx :
  CNN_Regression.validation_step b idx self = (Raise ValueError, self).
Proof. by destruct b. Qed.

Lemma test_step_run self b idx :
  CNN_Regression.test_step b idx self = (Raise ValueError, self).
Proof. by destruct b. Qed.

(** What [self.log] does with a number: the entry is added, nothing else
    changes. *)
Lemma log_number self name v :
  nn.numel v = 1%nat →
  CNN_Regression.log name (PyTensor v) self
  = (Ok tt, CNN_Regression.set_logged self
              (CNN_Regression.logged self ++ [(name, PyTensor v)])).
Proof.
  intros Hv. unfold CNN_Regression.log, mbind, M_bind, get. by rewrite Hv.
Qed.
End model.

(** ** Shapes through the layers *)

Section layers.
Local Open Scope nat_scope.

Lemma list_getitem_0 {A} (x : A) l : list_getitem (x :: l) 0 = Ok x.
Proof.
  destruct (list_getitem_nonneg (x :: l) 0%Z) as (y & Hy & ->);
    [cbn [length]; lia|].
  change (Z.to_nat 0) with 0 in Hy. cbn in Hy. congruence.
Qed.

Lemma list_getitem_1 {A} (x y : A) l : list_getitem (x :: y :: l) 1 = Ok y.
Proof.
  destruct (list_getitem_nonneg (x :: y :: l) 1%Z) as (z & Hz & ->);
    [cbn [length]; lia|].
  change (Z.to_nat 1) with 1 in Hz. cbn in Hz. congruence.
Qed.

Lemma window_out_cases h k s :
  (∃ h', nn.window_out h k s = Ok h' ∧ 0 < h')
  ∨ nn.window_out h k s = Raise RuntimeError.
Proof.
  unfold nn.window_out. destruct (_ && _); [left|by right].
  eexists. split; [done|lia].
Qed.

(** A layer treats the items of a batch alike: what it makes of one
    item it makes of each of [n]. *)
Lemma conv2d_batch c ch h w t :
  nn.conv2d c (Tensor [1; ch; h; w]) = Ok t →
  ∃ h' w', t = Tensor [1; nn.out_channels c; h'; w'] ∧ 0 < h' ∧ 0 < w'
    ∧ ∀ n, nn.conv2d c (Tensor [n; ch; h; w])
           = Ok (Tensor [n; nn.out_channels c; h'; w']).
Proof.
  unfold nn.conv2d. cbn [size].
  destruct (_ && _); [|done].
  destruct (window_out_cases h (nn.kernel_size c) (nn.stride c))
    as [(h' & -> & ?)| ->]; [|done].
  destruct (window_out_cases w (nn.kernel_size c) (nn.stride c))
    as [(w' & -> & ?)| ->]; [|done].
  intros [= <-]. by exists h', w'.
Qed.

Lemma max_pool2d_batch p ch h w t :
  nn.max_pool2d p (Tensor [1; ch; h; w]) = Ok t →
  ∃ h' w', t = Tensor [1; ch; h'; w'] ∧ 0 < h' ∧ 0 < w'
    ∧ ∀ n, nn.max_pool2d p (Tensor [n; ch; h; w])
           = Ok (Tensor [n; ch; h'; w']).
Proof.
  unfold nn.max_pool2d. cbn [size].
  destruct (window_out_cases h (nn.pool_kernel_size p) (nn.pool_kernel_size p))
    as [(h' & -> & ?)| ->]; [|done].
  destruct (window_out_cases w (nn.pool_kernel_size p) (nn.pool_kernel_size p))
    as [(w' & -> & ?)| ->]; [|done].
  intros [= <-]. by exists h', w'.
Qed.

Lemma view_rows_batch n rest :
  0 < n →
  nn.view_rows (Tensor (n :: rest)) n = Ok (Tensor [n; nn.numel (Tensor rest)]).
Proof.
  intros Hn. unfold nn.view_rows, nn.numel. cbn [size foldr].
  rewrite (Nat.mul_comm n), Nat.Div0.mod_mul, Nat.div_mul by lia.
  destruct (Nat.ltb_spec 0 n); [done|lia].
Qed.
End layers.

Section model_shapes.
Context {float W : Type}.
Implicit Types (self m : CNN_Regression.t float W).
Local Open Scope nat_scope.

Lemma feature_extractor_batch self c h w t self' :
  CNN_Regression.feature_extractor (Tensor [1; c; h; w]) self = (Ok t, self') →
  self' = self
  ∧ ∃ h' w',
      t = Tensor [1; nn.out_channels (CNN_Regression.conv4 self); h'; w']
      ∧ 0 < h' ∧ 0 < w'
      ∧ ∀ n, CNN_Regression.feature_extractor (Tensor [n; c; h; w]) self
             = (Ok (Tensor [n; nn.out_channels (CNN_Regression.conv4 self);
                            h'; w']), self).
Proof.
  unfold CNN_Regression.feature_extractor, mbind, M_bind, get, lift,
    nn.activate.
  destruct (nn.conv2d (CNN_Regression.conv1 self) _) as [t1|] eqn:E1;
    [|done].
  apply conv2d_batch in E1 as (h1 & w1 & -> & _ & _ & B1).
  destruct (nn.conv2d (CNN_Regression.conv2 self) _) as [t2|] eqn:E2;
    [|done].
  apply conv2d_batch in E2 as (h2 & w2 & -> & _ & _ & B2).
  destruct (nn.max_pool2d (CNN_Regression.pool1 self) _) as [t3|] eqn:E3;
    [|done].
  apply max_pool2d_batch in E3 as (h3 & w3 & -> & _ & _ & B3).
  destruct (nn.conv2d (CNN_Regression.conv3 self) _) as [t4|] eqn:E4;
    [|done].
  apply conv2d_batch in E4 as (h4 & w4 & -> & _ & _ & B4).
  destruct (nn.conv2d (CNN_Regression.conv4 self) _) as [t5|] eqn:E5;
    [|done].
  apply conv2d_batch in E5 as (h5 & w5 & -> & _ & _ & B5).
  destruct (nn.max_pool2d (CNN_Regression.pool2 self) _) as [t6|] eqn:E6;
    [|done].
  apply max_pool2d_batch in E6 as (h6 & w6 & -> & ? & ? & B6).
  intros [= <- <-]. split; [done|]. exists h6, w6.
  repeat split; [done..|].
  intros n. by rewrite B1, B2, B3, B4, B5, B6.
Qed.

Lemma feature_extractor_set_head self l1 l2 l3 out loss x :
  CNN_Regression.feature_extractor x
    (CNN_Regression.set_head self l1 l2 l3 out loss)
  = (call (CNN_Regression.feature_extractor x) self,
     CNN_Regression.set_head self l1 l2 l3 out loss).
Proof.
  unfold call, CNN_Regression.feature_extractor, mbind, M_bind, get, lift.
  cbn [CNN_Regression.set_head CNN_Regression.conv1 CNN_Regression.conv2
       CNN_Regression.conv3 CNN_Regression.conv4 CNN_Regression.pool1
       CNN_Regression.pool2 CNN_Regression.activation_fn].
  repeat first [destruct (nn.conv2d _ _) | destruct (nn.max_pool2d _ _)];
    done.
Qed.

(** A model that [__init__] has built for images of shape (c, h, w)
    takes a batch of [n] such images to [n] rows of features, as many
    per row as [fc1] expects: a positive multiple of 64. *)
Lemma forward_returns_features c h w (lr : float) od (init : W) m n :
  CNN_Regression.__init__ [c; h; w] lr od init = Ok m →
  0 < n →
  ∃ h' w',
    0 < h' ∧ 0 < w'
    ∧ CNN_Regression.fc1 m
      = Some {| nn.in_features := 64 * (h' * w'); nn.out_features := 512 |}
    ∧ CNN_Regression.output_layer m
      = Some {| nn.in_features := 128; nn.out_features := od |}
    ∧ CNN_Regression.forward (Tensor [n; c; h; w]) m
      = (Ok (Tensor [n; 64 * (h' * w')]), m).
Proof.
  intros Hinit Hn. unfold CNN_Regression.__init__ in Hinit.
  rewrite list_getitem_0 in Hinit. cbn [mbind result_bind] in Hinit.
  unfold CNN_Regression._get_output_shape in Hinit.
  unfold mbind at 1, M_bind at 1 in Hinit.
  destruct (CNN_Regression.feature_extractor _ _) as [[t|e] self'] eqn:E;
    [|done].
  apply feature_extractor_batch in E as (-> & h' & w' & -> & ? & ? & B).
  cbn [CNN_Regression.conv4 nn.out_channels] in Hinit, B.
  unfold mbind, M_bind, lift, mret, M_ret in Hinit.
  rewrite view_rows_batch in Hinit by lia.
  cbn [size] in Hinit. rewrite list_getitem_1 in Hinit.
  unfold nn.numel in Hinit. cbn [size foldr] in Hinit.
  rewrite Nat.mul_1_r in Hinit.
  injection Hinit as <-.
  exists h', w'. split; [done|]. split; [done|]. split; [done|].
  split; [done|].
  unfold CNN_Regression.forward.
  unfold mbind at 1, M_bind at 1.
  rewrite feature_extractor_set_head. unfold call. rewrite B.
  cbn [fst]. unfold mbind, M_bind, lift, mret, M_ret.
  cbn [size]. rewrite list_getitem_0.
  rewrite view_rows_batch by lia.
  unfold nn.numel. cbn [size foldr]. by rewrite Nat.mul_1_r.
Qed.
End model_shapes.

(** ** The model's steps *)

(** C5.  The model is to take every input of the configured shape through
    four convolutions and two pooling stages, flatten the result and feed
    it to the fully connected head, which yields one number per image.
    The layers of the head are built, with one output, but [forward] stops
    after flattening: for images of 12 channels and 128 x 128 pixels a
    batch of 5 comes back as 5 rows of 576 features. *)
Theorem C5_forward_stops_before_head {float W} (lr : float) (init : W) :
  ∃ m : CNN_Regression.t float W,
    CNN_Regression.__init__ [12; 128; 128]%nat lr 1 init = Ok m
    ∧ CNN_Regression.fc1 m
      = Some {| nn.in_features := 576; nn.out_features := 512 |}
    ∧ CNN_Regression.fc2 m
      = Some {| nn.in_features := 512; nn.out_features := 256 |}
    ∧ CNN_Regression.fc3 m
      = Some {| nn.in_features := 256; nn.out_features := 128 |}
    ∧ CNN_Regression.output_layer m
      = Some {| nn.in_features := 128; nn.out_features := 1 |}
    ∧ CNN_Regression.forward (Tensor [5; 12; 128; 128]%nat) m
      = (Ok (Tensor [5; 576]%nat), m).
Proof.
  eexists. split; [vm_compute; reflexivity|]. by vm_compute.
Qed.

(** C6.  The loss of a batch is to be the mean squared error between the
    predictions and the labels.  For every batch [compute_loss] returns
    the object [Ellipsis], which is no number; the criterion is never
    applied.  The training, the validation and the test step hand that
    object to [self.log], which raises: none of them yields a loss. *)
Theorem C6_compute_loss_returns_ellipsis {float W}
    (self : CNN_Regression.t float W) (b : CNN_Regression.batch) (batch_idx : nat) :
  CNN_Regression.compute_loss b self = (Ok PyEllipsis, self)
  ∧ is_number PyEllipsis = false
  ∧ CNN_Regression.training_step b batch_idx self = (Raise ValueError, self)
  ∧ CNN_Regression.validation_step b batch_idx self = (Raise ValueError, self)
  ∧ CNN_Regression.test_step b batch_idx self = (Raise ValueError, self).
Proof. by destruct b. Qed.

(** C7.  For every validation batch the validation step is to compute and
    log a loss and to leave the parameters unchanged.  The parameters are
    left unchanged, but no loss is computed or logged: [compute_loss]
    returns [Ellipsis], [self.log] raises for it, and so the step raises
    with the log as it was. *)
Theorem C7_validation_step_logs_no_loss {float W}
    (self : CNN_Regression.t float W) (b : CNN_Regression.batch) (batch_idx : nat) :
  call (CNN_Regression.compute_loss b) self = Ok PyEllipsis
  ∧ CNN_Regression.validation_step b batch_idx self = (Raise ValueError, self)
  ∧ CNN_Regression.logged
      (after (CNN_Regression.validation_step b batch_idx) self)
    = CNN_Regression.logged self
  ∧ CNN_Regression.weights
      (after (CNN_Regression.validation_step b batch_idx) self)
    = CNN_Regression.weights self.
Proof.
  unfold call, after. by rewrite validation_step_run, compute_loss_ellipsis.
Qed.

(** * Further properties

    Properties of the same code beyond the ones above. *)

(** ** Dataset, further *)

(** X1.  [Dataset.__getitem__] accepts exactly the indices from [-len] up
    to [len - 1], negative ones counting from the end: for these it
    returns [None], for every other index it raises [IndexError]; in both
    cases the dataset is left as it was. *)
Theorem X1_getitem_index_bounds idx self :
  let n := Z.of_nat (length (Dataset.files self)) in
  Dataset.__getitem__ idx self
  = (if bool_decide (- n ≤ idx < n) then Ok PyNone else Raise IndexError, self).
Proof.
  intros n. unfold Dataset.__getitem__, mbind, M_bind, get, lift; cbn.
  unfold list_getitem. fold n.
  destruct (Z.ltb_spec idx 0) as [Hneg|Hpos].
  - destruct (Z.leb_spec 0 (idx + n)) as [Hlo|Hlo];
      destruct (Z.ltb_spec (idx + n) n) as [Hhi|Hhi]; cbn [andb];
      try (rewrite bool_decide_eq_false_2 by lia; done).
    destruct (lookup_lt_is_Some_2 (Dataset.files self) (Z.to_nat (idx + n)))
      as [x ->]; [lia|].
    by rewrite bool_decide_eq_true_2 by lia.
  - destruct (Z.leb_spec 0 idx) as [_|?]; [|lia].
    destruct (Z.ltb_spec idx n) as [Hhi|Hhi]; cbn [andb];
      [|by rewrite bool_decide_eq_false_2 by lia].
    destruct (lookup_lt_is_Some_2 (Dataset.files self) (Z.to_nat idx))
      as [x ->]; [lia|].
    by rewrite bool_decide_eq_true_2 by lia.
Qed.

Lemma bind_singleton_fmap {A B} (f : A → B) (l : list A) :
  (x ← l; [f x]) = f <$> l.
Proof. induction l as [|a l IH]; [done|]. cbn. by rewrite IH. Qed.

Lemma s2_bands_unfold data_dir files seasons bands :
  Dataset.s2_bands (Dataset.__init__ data_dir files seasons bands)
  = season ← seasons; (λ band, season +:+ "_" +:+ band) <$> bands.
Proof.
  cbn [Dataset.__init__ Dataset.s2_bands].
  induction seasons as [|s seasons IH]; [done|].
  rewrite !bind_cons, IH. by rewrite bind_singleton_fmap.
Qed.

(** X2.  The channel names are laid out season by season: with [i] the
    position of a season and [j] the position of a band, the name at
    position [i * len(bands) + j] of [s2_bands] is season, underscore,
    band. *)
Theorem X2_s2_bands_layout data_dir files seasons bands i j season band :
  seasons !! i = Some season →
  bands !! j = Some band →
  Dataset.s2_bands (Dataset.__init__ data_dir files seasons bands)
    !! (i * length bands + j)%nat
  = Some (season +:+ "_" +:+ band).
Proof.
  rewrite s2_bands_unfold. intros Hi Hj.
  revert i Hi. induction seasons as [|s seasons IH]; intros i Hi; [done|].
  rewrite bind_cons. destruct i as [|i].
  - injection Hi as ->. cbn [Nat.mul Nat.add].
    rewrite lookup_app_l by (rewrite length_fmap; by eapply lookup_lt_Some).
    by rewrite list_lookup_fmap, Hj.
  - cbn in Hi. rewrite lookup_app_r by (rewrite length_fmap; cbn; lia).
    rewrite length_fmap.
    replace (S i * length bands + j - length bands)%nat
      with (i * length bands + j)%nat by (cbn; lia).
    by apply IH.
Qed.

Lemma X2_s2_bands_layout_witness :
  ["spring"; "summer"] !! 1%nat = Some "summer"
  ∧ ["B04"; "B08"; "B11"] !! 2%nat = Some "B11"
  ∧ Dataset.s2_bands
      (Dataset.__init__ "data" ["tile_a"] ["spring"; "summer"]
         ["B04"; "B08"; "B11"])
      !! (1 * length ["B04"; "B08"; "B11"] + 2)%nat
    = Some ("summer" +:+ "_" +:+ "B11").
Proof.
  assert (Hi : ["spring"; "summer"] !! 1%nat = Some "summer") by reflexivity.
  assert (Hj : ["B04"; "B08"; "B11"] !! 2%nat = Some "B11") by reflexivity.
  split; [exact Hi|]. split; [exact Hj|].
  exact (X2_s2_bands_layout "data" ["tile_a"] ["spring"; "summer"]
           ["B04"; "B08"; "B11"] 1 2 "summer" "B11" Hi Hj).
Defined.

Lemma underscore_split s1 b1 s2 b2 :
  has_char "_" s1 = false → has_char "_" s2 = false →
  s1 +:+ "_" +:+ b1 = s2 +:+ "_" +:+ b2 → s1 = s2 ∧ b1 = b2.
Proof.
  revert s2. induction s1 as [|c1 s1 IH]; intros [|c2 s2] H1 H2 Heq; cbn in *.
  - by injection Heq.
  - injection Heq as <- _. by rewrite Ascii.eqb_refl in H2.
  - injection Heq as -> _. by rewrite Ascii.eqb_refl in H1.
  - injection Heq as -> Heq.
    apply orb_false_iff in H1 as [_ H1]. apply orb_false_iff in H2 as [_ H2].
    destruct (IH s2 H1 H2 Heq) as [-> ->]. done.
Qed.

(** X3.  When no season is listed twice, no band is listed twice and no
    season name holds an underscore, the channel names in [s2_bands] are
    pairwise different. *)
Theorem X3_s2_bands_distinct data_dir files seasons bands :
  NoDup seasons → NoDup bands →
  Forall (λ season, has_char "_" season = false) seasons →
  NoDup (Dataset.s2_bands (Dataset.__init__ data_dir files seasons bands)).
Proof.
  intros Hs Hb Hu. rewrite s2_bands_unfold.
  rewrite Forall_forall in Hu.
  apply NoDup_bind; [| |done].
  - intros s1 s2 y Hs1 Hs2 (b1 & -> & _)%list_elem_of_fmap
      (b2 & Heq & _)%list_elem_of_fmap.
    by destruct (underscore_split s1 b1 s2 b2 (Hu _ Hs1) (Hu _ Hs2) Heq).
  - intros s _. apply NoDup_fmap_2; [|done].
    intros b1 b2 Heq. by do 2 apply (inj _) in Heq.
Qed.

Lemma X3_s2_bands_distinct_witness :
  NoDup ["spring"; "summer"]
  ∧ NoDup ["B04"; "B08"; "B11"]
  ∧ Forall (λ season, has_char "_" season = false) ["spring"; "summer"]
  ∧ NoDup (Dataset.s2_bands
             (Dataset.__init__ "data" ["tile_a"] ["spring"; "summer"]
                ["B04"; "B08"; "B11"])).
Proof.
  assert (Hs : NoDup ["spring"; "summer"]).
  { apply (bool_decide_eq_true_1 _). vm_compute. reflexivity. }
  assert (Hb : NoDup ["B04"; "B08"; "B11"]).
  { apply (bool_decide_eq_true_1 _). vm_compute. reflexivity. }
  assert (Hu : Forall (λ season, has_char "_" season = false)
                 ["spring"; "summer"]).
  { apply (bool_decide_eq_true_1 _). vm_compute. reflexivity. }
  split; [exact Hs|]. split; [exact Hb|]. split; [exact Hu|].
  exact (X3_s2_bands_distinct "data" ["tile_a"] ["spring"; "summer"]
           ["B04"; "B08"; "B11"] Hs Hb Hu).
Defined.

(** X4.  Whatever [data_dir] is, the directory of the images and the
    directory of the labels that [Dataset.__init__] sets are different
    paths. *)
Theorem X4_image_and_label_paths_differ data_dir files seasons bands :
  let ds := Dataset.__init__ data_dir files seasons bands in
  Dataset.s2_path ds ≠ Dataset.veg_path ds.
Proof.
  cbn. unfold path_join. cbn [String.prefix].
  destruct (_ || _); intros Heq; repeat apply (inj _) in Heq; done.
Qed.

(** ** Dataloader, further *)

(** X5.  Each of the three identifier lists keeps the order of the table:
    it is the identifier column with rows left out. *)
Theorem X5_split_lists_keep_table_order data_dir df seasons bands batch_size :
  let dl := Dataloader.__init__ data_dir df seasons bands batch_size in
  Dataloader.train_files dl `sublist_of` pandas.identifier <$> df
  ∧ Dataloader.val_files dl `sublist_of` pandas.identifier <$> df
  ∧ Dataloader.test_files dl `sublist_of` pandas.identifier <$> df.
Proof.
  intros dl. subst dl. unfold Dataloader.__init__.
  cbn [Dataloader.train_files Dataloader.val_files Dataloader.test_files].
  unfold pandas.identifiers_where_split.
  repeat split; apply fmap_sublist, sublist_filter.
Qed.

(** X6.  For any table, valid or not, the three identifier lists together
    with the identifiers of the rows whose split is none of train, val,
    test are the identifier column rearranged: every row is counted once,
    with its multiplicity. *)
Theorem X6_split_lists_and_leftover_rows data_dir df seasons bands batch_size :
  let dl := Dataloader.__init__ data_dir df seasons bands batch_size in
  Dataloader.train_files dl ++ Dataloader.val_files dl
    ++ Dataloader.test_files dl ++ other_identifiers df
  ≡ₚ pandas.identifier <$> df.
Proof.
  intros dl. subst dl. unfold Dataloader.__init__.
  cbn [Dataloader.train_files Dataloader.val_files Dataloader.test_files].
  unfold pandas.identifiers_where_split, other_identifiers.
  induction df as [|r df IH]; [done|].
  cbn [fmap list_fmap].
  destruct (decide (pandas.split r = "train")) as [Ht|Ht];
    [|destruct (decide (pandas.split r = "val")) as [Hv|Hv];
      [|destruct (decide (pandas.split r = "test")) as [Hs|Hs]]].
  - rewrite (filter_cons_True (λ r, pandas.split r = "train")) by done.
    rewrite !filter_cons_False
      by (rewrite Ht; first [done|intros H; apply H; in_names]).
    cbn [fmap list_fmap app]. by f_equiv.
  - rewrite (filter_cons_True (λ r, pandas.split r = "val")) by done.
    rewrite !filter_cons_False
      by (rewrite Hv; first [done|intros H; apply H; in_names]).
    cbn [fmap list_fmap app]. rewrite <- Permutation_middle. by f_equiv.
  - rewrite (filter_cons_True (λ r, pandas.split r = "test")) by done.
    rewrite !filter_cons_False
      by (rewrite Hs; first [done|intros H; apply H; in_names]).
    cbn [fmap list_fmap app].
    rewrite (app_assoc _ _ (_ :: _)), <- Permutation_middle, <- app_assoc.
    by f_equiv.
  - assert (Hnot : pandas.split r ∉ split_names).
    { unfold split_names. rewrite !not_elem_of_cons.
      repeat split; [done..|apply not_elem_of_nil]. }
    rewrite (filter_cons_True (λ r, pandas.split r ∉ split_names)) by done.
    rewrite !filter_cons_False by done.
    cbn [fmap list_fmap app].
    rewrite !(app_assoc _ _ (_ :: _)), <- Permutation_middle, <- !app_assoc.
    by f_equiv.
Qed.

(** ** The loaders, further *)

Lemma batch_sampler_lengths (size : nat) batch indices :
  (length batch < size)%nat →
  length <$> DataLoader.batch_sampler (Z.of_nat size) batch indices
  = batch_lengths size (length batch + length indices).
Proof.
  revert batch. induction indices as [|idx indices IH]; intros batch Hlt.
  - cbn [DataLoader.batch_sampler length]. rewrite Nat.add_0_r.
    unfold batch_lengths. rewrite Nat.div_small, Nat.mod_small by done.
    destruct batch; [done|]. cbn [length] in *. done.
  - cbn [DataLoader.batch_sampler length]. rewrite length_app. cbn [length].
    destruct (Z.eqb_spec (Z.of_nat (length batch + 1)) (Z.of_nat size)) as [Heq|Hne].
    + apply Nat2Z.inj in Heq. cbn [fmap list_fmap].
      rewrite length_app. cbn [length]. rewrite Heq.
      rewrite IH by (cbn; lia). cbn [length].
      replace (length batch + S (length indices))%nat
        with (length indices + 1 * size)%nat by lia.
      unfold batch_lengths.
      rewrite Nat.div_add, Nat.Div0.mod_add by lia.
      rewrite Nat.add_0_l, Nat.add_1_r. done.
    + rewrite IH by (rewrite length_app; cbn; lia).
      rewrite length_app. cbn [length]. f_equal. lia.
Qed.

Lemma len_run ds : call Dataset.__len__ ds = Ok (length (Dataset.files ds)).
Proof. done. Qed.

Lemma batches_run randperm (dl : DataLoader.t) :
  DataLoader.batches randperm dl
  = Ok (DataLoader.batch_sampler (DataLoader.batch_size dl) []
          (if DataLoader.shuffle dl
           then randperm (length (Dataset.files (DataLoader.dataset dl)))
           else seq 0 (length (Dataset.files (DataLoader.dataset dl))))).
Proof. unfold DataLoader.batches, DataLoader.sampler. by rewrite len_run. Qed.

Lemma batches_lengths randperm (dl : DataLoader.t) :
  0 < DataLoader.batch_size dl →
  (∀ n, randperm n ≡ₚ seq 0 n) →
  (λ bs : list (list nat), length <$> bs) <$> DataLoader.batches randperm dl
  = Ok (batch_lengths (Z.to_nat (DataLoader.batch_size dl))
          (length (Dataset.files (DataLoader.dataset dl)))).
Proof.
  intros Hsize Hperm. rewrite batches_run.
  cbn [fmap result_fmap]. f_equal.
  rewrite <- (Z2Nat.id (DataLoader.batch_size dl)) at 1 by lia.
  rewrite batch_sampler_lengths by (cbn; lia). cbn [length]. f_equal.
  destruct (DataLoader.shuffle dl); [|by rewrite length_seq].
  by rewrite (Hperm _), length_seq.
Qed.

Lemma batches_cover randperm (dl : DataLoader.t) :
  (∀ n, randperm n ≡ₚ seq 0 n) →
  ∃ bs, DataLoader.batches randperm dl = Ok bs
    ∧ concat bs ≡ₚ seq 0 (length (Dataset.files (DataLoader.dataset dl))).
Proof.
  intros Hperm. rewrite batches_run.
  eexists. split; [done|]. rewrite batch_sampler_concat. cbn [app].
  by destruct (DataLoader.shuffle dl).
Qed.

Lemma elem_of_concat_2 {A} (x : A) b (bs : list (list A)) :
  x ∈ b → b ∈ bs → x ∈ concat bs.
Proof.
  intros Hx Hb. induction bs as [|b' bs IH]; [by apply elem_of_nil in Hb|].
  cbn [concat]. apply elem_of_app.
  apply elem_of_cons in Hb as [<-|Hb]; auto.
Qed.

Lemma reversed_perm n : reversed n ≡ₚ seq 0 n.
Proof. unfold reversed. by rewrite <- Permutation_rev. Qed.

(** X7.  With a positive batch size and [randperm] drawing permutations,
    each of the three loader methods either has its loader refused, which
    happens to the train loader when no row of the table is a train row,
    or returns a loader whose batch sampler groups the [n] indices of its
    dataset into [n / batch_size] batches of [batch_size] indices,
    followed by one batch of the [n mod batch_size] indices left, if any. *)
Theorem X7_batch_sizes data_dir df seasons bands batch_size
    (randperm : nat → list nat) :
  0 < batch_size →
  (∀ n, randperm n ≡ₚ seq 0 n) →
  let self := Dataloader.__init__ data_dir df seasons bands batch_size in
  Forall (λ '(loader, files, shuffle),
    (dl ← call loader self;
     (λ bs : list (list nat), length <$> bs) <$> DataLoader.batches randperm dl)
    = if shuffle && (length files =? 0)%nat
      then Raise ValueError
      else Ok (batch_lengths (Z.to_nat batch_size) (length files)))
    (loaders self).
Proof.
  intros Hsize Hperm self.
  destruct (Z.leb_spec batch_size 0) as [?|_]; [lia|].
  repeat apply Forall_cons_2; [..|apply Forall_nil_2];
    unfold call at 1;
    unfold Dataloader.train_dataloader, Dataloader.val_dataloader,
      Dataloader.test_dataloader, mbind at 2, M_bind, get, lift;
    cbn [fst]; rewrite loader_init_run;
    cbn [Dataloader.__init__ Dataloader.train_dataset Dataloader.val_dataset
         Dataloader.test_dataset Dataloader.train_files Dataloader.val_files
         Dataloader.test_files Dataloader.batch_size self
         Dataset.__init__ Dataset.files];
    destruct (Z.leb_spec batch_size 0) as [?|_]; try lia;
    rewrite orb_false_r;
    (destruct (_ && _); [done|]);
    cbn [mbind result_bind]; by rewrite batches_lengths.
Qed.

Lemma X7_batch_sizes_witness :
  0 < 2
  ∧ (∀ n, reversed n ≡ₚ seq 0 n)
  ∧ let self := Dataloader.__init__ "data" example_splits ["spring"] ["B04"] 2 in
    Forall (λ '(loader, files, shuffle),
      (dl ← call loader self;
       (λ bs : list (list nat), length <$> bs) <$> DataLoader.batches reversed dl)
      = if shuffle && (length files =? 0)%nat
        then Raise ValueError
        else Ok (batch_lengths (Z.to_nat 2) (length files)))
      (loaders self).
Proof.
  assert (H : 0 < 2) by lia.
  split; [exact H|]. split; [exact reversed_perm|].
  exact (X7_batch_sizes "data" example_splits ["spring"] ["B04"] 2 reversed
           H reversed_perm).
Defined.

Lemma loader_accepts_its_indices randperm ds batch_size shuffle :
  0 < batch_size →
  (∀ n, randperm n ≡ₚ seq 0 n) →
  if shuffle && (length (Dataset.files ds) =? 0)%nat
  then DataLoader.__init__ ds batch_size shuffle = Raise ValueError
  else ∃ dl bs, DataLoader.__init__ ds batch_size shuffle = Ok dl
    ∧ DataLoader.batches randperm dl = Ok bs
    ∧ concat bs ≡ₚ seq 0 (length (Dataset.files ds))
    ∧ Forall (Forall (λ idx : nat,
        Dataset.__getitem__ (Z.of_nat idx) (DataLoader.dataset dl)
        = (Ok PyNone, DataLoader.dataset dl))) bs.
Proof.
  intros Hsize Hperm. rewrite loader_init_run.
  destruct (Z.leb_spec batch_size 0) as [?|_]; [lia|]. rewrite orb_false_r.
  destruct (_ && _); [done|].
  set (dl := {| DataLoader.dataset := ds; DataLoader.batch_size := batch_size;
                DataLoader.shuffle := shuffle |}).
  destruct (batches_cover randperm dl Hperm) as (bs & Hbs & Hcover).
  exists dl, bs. split; [done|]. split; [done|]. split; [done|].
  rewrite Forall_forall. intros b Hb. rewrite Forall_forall. intros idx Hidx.
  apply getitem_in_range.
  assert (Hin : idx ∈ concat bs) by by eapply elem_of_concat_2.
  rewrite Hcover in Hin. apply elem_of_seq in Hin. cbn in *. lia.
Qed.

(** X8.  With a positive batch size and [randperm] drawing permutations,
    each of the three loader methods either has its loader refused (the
    train loader, when no row of the table is a train row) or returns a
    loader whose batch sampler yields every index of its dataset exactly
    once, each of them an index that [Dataset.__getitem__] accepts: called
    with it, [__getitem__] returns and raises no [IndexError]. *)
Theorem X8_batch_indices_are_in_range data_dir df seasons bands batch_size
    (randperm : nat → list nat) :
  0 < batch_size →
  (∀ n, randperm n ≡ₚ seq 0 n) →
  let self := Dataloader.__init__ data_dir df seasons bands batch_size in
  Forall (λ '(loader, files, shuffle),
    if shuffle && (length files =? 0)%nat
    then call loader self = Raise ValueError
    else ∃ dl bs, call loader self = Ok dl
      ∧ DataLoader.batches randperm dl = Ok bs
      ∧ concat bs ≡ₚ seq 0 (length files)
      ∧ Forall (Forall (λ idx : nat,
          Dataset.__getitem__ (Z.of_nat idx) (DataLoader.dataset dl)
          = (Ok PyNone, DataLoader.dataset dl))) bs)
    (loaders self).
Proof.
  intros Hsize Hperm self.
  repeat apply Forall_cons_2; [..|apply Forall_nil_2].
  - exact (loader_accepts_its_indices randperm
             (Dataloader.train_dataset self) batch_size true Hsize Hperm).
  - exact (loader_accepts_its_indices randperm
             (Dataloader.val_dataset self) batch_size false Hsize Hperm).
  - exact (loader_accepts_its_indices randperm
             (Dataloader.test_dataset self) batch_size false Hsize Hperm).
Qed.

Lemma X8_batch_indices_are_in_range_witness :
  0 < 2
  ∧ (∀ n, reversed n ≡ₚ seq 0 n)
  ∧ let self := Dataloader.__init__ "data" example_splits ["spring"] ["B04"] 2 in
    Forall (λ '(loader, files, shuffle),
      if shuffle && (length files =? 0)%nat
      then call loader self = Raise ValueError
      else ∃ dl bs, call loader self = Ok dl
        ∧ DataLoader.batches reversed dl = Ok bs
        ∧ concat bs ≡ₚ seq 0 (length files)
        ∧ Forall (Forall (λ idx : nat,
            Dataset.__getitem__ (Z.of_nat idx) (DataLoader.dataset dl)
            = (Ok PyNone, DataLoader.dataset dl))) bs)
      (loaders self).
Proof.
  assert (H : 0 < 2) by lia.
  split; [exact H|]. split; [exact reversed_perm|].
  exact (X8_batch_indices_are_in_range "data" example_splits ["spring"]
           ["B04"] 2 reversed H reversed_perm).
Defined.

(** ** CNN_Regression, further *)

Section model_sizes.
Context {float W : Type}.
Implicit Types (self m : CNN_Regression.t float W).
Local Open Scope nat_scope.

Lemma conv2d_step c n ch h w :
  ch = nn.in_channels c → 0 < nn.in_channels c → 0 < nn.stride c →
  nn.conv2d c (Tensor [n; ch; h; w])
  = if (nn.kernel_size c <=? h) && (nn.kernel_size c <=? w)
    then Ok (Tensor [n; nn.out_channels c;
                     (h - nn.kernel_size c) / nn.stride c + 1;
                     (w - nn.kernel_size c) / nn.stride c + 1])
    else Raise RuntimeError.
Proof.
  intros -> Hc Hs. unfold nn.conv2d, nn.window_out. cbn [size].
  rewrite Nat.eqb_refl.
  destruct (Nat.ltb_spec 0 (nn.in_channels c)); [|lia]. cbn [andb].
  destruct (Nat.ltb_spec 0 (nn.stride c)); [|lia].
  rewrite !andb_true_r.
  by destruct (_ <=? h), (_ <=? w).
Qed.

Lemma max_pool2d_step p n ch h w :
  0 < nn.pool_kernel_size p →
  nn.max_pool2d p (Tensor [n; ch; h; w])
  = if (nn.pool_kernel_size p <=? h) && (nn.pool_kernel_size p <=? w)
    then Ok (Tensor [n; ch;
                     (h - nn.pool_kernel_size p) / nn.pool_kernel_size p + 1;
                     (w - nn.pool_kernel_size p) / nn.pool_kernel_size p + 1])
    else Raise RuntimeError.
Proof.
  intros Hs. unfold nn.max_pool2d, nn.window_out. cbn [size].
  destruct (Nat.ltb_spec 0 (nn.pool_kernel_size p)); [|lia].
  rewrite !andb_true_r.
  by destruct (_ <=? h), (_ <=? w).
Qed.

Local Ltac lia_div := zify; Z.to_euclidean_division_equations; lia.

(** One dimension through the six layers: what each layer leaves of it,
    and from which size on it fits the next. *)
Lemma size_conv1 h : 3 ≤ h → (h - 3) / 1 + 1 = h - 2.
Proof. intros. lia_div. Qed.
Lemma size_conv2 h : 5 ≤ h → (h - 2 - 3) / 2 + 1 = (h - 3) / 2.
Proof. intros. lia_div. Qed.
Lemma size_pool1 h : 7 ≤ h → ((h - 3) / 2 - 2) / 2 + 1 = (h - 3) / 4.
Proof. intros. lia_div. Qed.
Lemma size_conv3 h : 15 ≤ h → ((h - 3) / 4 - 3) / 2 + 1 = (h - 7) / 8.
Proof. intros. lia_div. Qed.
Lemma size_conv4 h : 31 ≤ h → ((h - 7) / 8 - 3) / 2 + 1 = (h - 15) / 16.
Proof. intros. lia_div. Qed.
Lemma size_pool2 h : 47 ≤ h → ((h - 15) / 16 - 2) / 2 + 1 = (h - 15) / 32.
Proof. intros. lia_div. Qed.

Lemma fits_conv2 h : (3 <=? h - 2) = (5 <=? h).
Proof. destruct (Nat.leb_spec 3 (h - 2)), (Nat.leb_spec 5 h); lia. Qed.
Lemma fits_pool1 h : (2 <=? (h - 3) / 2) = (7 <=? h).
Proof. destruct (Nat.leb_spec 2 ((h - 3) / 2)), (Nat.leb_spec 7 h); lia_div. Qed.
Lemma fits_conv3 h : (3 <=? (h - 3) / 4) = (15 <=? h).
Proof. destruct (Nat.leb_spec 3 ((h - 3) / 4)), (Nat.leb_spec 15 h); lia_div. Qed.
Lemma fits_conv4 h : (3 <=? (h - 7) / 8) = (31 <=? h).
Proof. destruct (Nat.leb_spec 3 ((h - 7) / 8)), (Nat.leb_spec 31 h); lia_div. Qed.
Lemma fits_pool2 h : (2 <=? (h - 15) / 16) = (47 <=? h).
Proof. destruct (Nat.leb_spec 2 ((h - 15) / 16)), (Nat.leb_spec 47 h); lia_div. Qed.

Local Ltac sizes_done h w :=
  destruct (Nat.leb_spec 47 h); destruct (Nat.leb_spec 47 w);
  cbn [andb mret M_ret]; cbv beta iota;
  first [done | exfalso; lia].

Local Ltac layer h w :=
  match goal with
  | |- context [(?k <=? ?a) && (?k <=? ?b)] =>
      tryif unify k 47 then fail else
        (destruct (Nat.leb_spec k a); destruct (Nat.leb_spec k b);
         cbn [andb]; cbv beta iota; [|sizes_done h w..])
  end.

(** What the six layers of [__init__] make of [h] x [w] pixels. *)
Lemma feature_extractor_sizes self c n h w :
  0 < c →
  CNN_Regression.conv1 self
    = {| nn.in_channels := c; nn.out_channels := 32;
         nn.kernel_size := 3; nn.stride := 1 |} →
  CNN_Regression.conv2 self
    = {| nn.in_channels := 32; nn.out_channels := 32;
         nn.kernel_size := 3; nn.stride := 2 |} →
  CNN_Regression.conv3 self
    = {| nn.in_channels := 32; nn.out_channels := 64;
         nn.kernel_size := 3; nn.stride := 2 |} →
  CNN_Regression.conv4 self
    = {| nn.in_channels := 64; nn.out_channels := 64;
         nn.kernel_size := 3; nn.stride := 2 |} →
  CNN_Regression.pool1 self = {| nn.pool_kernel_size := 2 |} →
  CNN_Regression.pool2 self = {| nn.pool_kernel_size := 2 |} →
  CNN_Regression.feature_extractor (Tensor [n; c; h; w]) self
  = (if (47 <=? h) && (47 <=? w)
     then Ok (Tensor [n; 64; (h - 15) / 32; (w - 15) / 32])
     else Raise RuntimeError, self).
Proof.
  intros Hc H1 H2 H3 H4 H5 H6.
  unfold CNN_Regression.feature_extractor, mbind at 1, M_bind at 1, get.
  rewrite H1, H2, H3, H4, H5, H6.
  unfold mbind, M_bind, lift, nn.activate.
  rewrite conv2d_step by (cbn; done || lia).
  cbn [nn.in_channels nn.out_channels nn.kernel_size nn.stride].
  layer h w. rewrite !size_conv1 by lia.
  rewrite conv2d_step by (cbn; done || lia).
  cbn [nn.in_channels nn.out_channels nn.kernel_size nn.stride].
  rewrite !fits_conv2. layer h w. rewrite !size_conv2 by lia.
  rewrite max_pool2d_step by (cbn; lia). cbn [nn.pool_kernel_size].
  rewrite !fits_pool1. layer h w. rewrite !size_pool1 by lia.
  rewrite conv2d_step by (cbn; done || lia).
  cbn [nn.in_channels nn.out_channels nn.kernel_size nn.stride].
  rewrite !fits_conv3. layer h w. rewrite !size_conv3 by lia.
  rewrite conv2d_step by (cbn; done || lia).
  cbn [nn.in_channels nn.out_channels nn.kernel_size nn.stride].
  rewrite !fits_conv4. layer h w. rewrite !size_conv4 by lia.
  rewrite max_pool2d_step by (cbn; lia). cbn [nn.pool_kernel_size].
  rewrite !fits_pool2.
  destruct (Nat.leb_spec 47 h); destruct (Nat.leb_spec 47 w);
    cbn [andb]; cbv beta iota; [|done..].
  by rewrite !size_pool2 by lia.
Qed.

Lemma conv2d_channels c n ch h w :
  ch ≠ nn.in_channels c →
  nn.conv2d c (Tensor [n; ch; h; w]) = Raise RuntimeError.
Proof.
  intros Hne. unfold nn.conv2d. cbn [size].
  destruct (Nat.eqb_spec ch (nn.in_channels c)); [done|].
  by rewrite andb_false_r.
Qed.

Lemma feature_extractor_channels self n ch h w :
  ch ≠ nn.in_channels (CNN_Regression.conv1 self) →
  CNN_Regression.feature_extractor (Tensor [n; ch; h; w]) self
  = (Raise RuntimeError, self).
Proof.
  intros Hne.
  unfold CNN_Regression.feature_extractor, mbind, M_bind, get, lift.
  by rewrite conv2d_channels.
Qed.

(** The module as [__init__] leaves it, [hidden] being the number of
    features found by the trial run. *)
Lemma init_run c h w (lr : float) od (init : W) :
  0 < c →
  CNN_Regression.__init__ [c; h; w] lr od init
  = if (47 <=? h) && (47 <=? w) then
      Ok {| CNN_Regression.input_shape := [c; h; w];
            CNN_Regression.input_channels := c;
            CNN_Regression.output_dim := od;
            CNN_Regression.learning_rate := lr;
            CNN_Regression.conv1 :=
              {| nn.in_channels := c; nn.out_channels := 32;
                 nn.kernel_size := 3; nn.stride := 1 |};
            CNN_Regression.conv2 :=
              {| nn.in_channels := 32; nn.out_channels := 32;
                 nn.kernel_size := 3; nn.stride := 2 |};
            CNN_Regression.conv3 :=
              {| nn.in_channels := 32; nn.out_channels := 64;
                 nn.kernel_size := 3; nn.stride := 2 |};
            CNN_Regression.conv4 :=
              {| nn.in_channels := 64; nn.out_channels := 64;
                 nn.kernel_size := 3; nn.stride := 2 |};
            CNN_Regression.activation_fn := nn.relu;
            CNN_Regression.output_activation_fn := nn.elu;
            CNN_Regression.pool1 := {| nn.pool_kernel_size := 2 |};
            CNN_Regression.pool2 := {| nn.pool_kernel_size := 2 |};
            CNN_Regression.fc1 :=
              Some {| nn.in_features := 64 * ((h - 15) / 32 * ((w - 15) / 32));
                      nn.out_features := 512 |};
            CNN_Regression.fc2 :=
              Some {| nn.in_features := 512; nn.out_features := 256 |};
            CNN_Regression.fc3 :=
              Some {| nn.in_features := 256; nn.out_features := 128 |};
            CNN_Regression.output_layer :=
              Some {| nn.in_features := 128; nn.out_features := od |};
            CNN_Regression.criterion := Some nn.MSELoss;
            CNN_Regression.weights := init;
            CNN_Regression.logged := [] |}
    else Raise RuntimeError.
Proof.
  intros Hc. unfold CNN_Regression.__init__.
  rewrite list_getitem_0. cbn [mbind result_bind].
  unfold CNN_Regression._get_output_shape.
  unfold mbind at 1, M_bind at 1.
  rewrite (feature_extractor_sizes _ c) by done.
  destruct ((47 <=? h) && (47 <=? w)); [|done].
  unfold mbind, M_bind, lift, mret, M_ret.
  rewrite view_rows_batch by lia.
  cbn [size]. rewrite list_getitem_1.
  unfold nn.numel, CNN_Regression.set_head. cbn [size foldr].
  by rewrite Nat.mul_1_r.
Qed.

Lemma forward_run self c n h w :
  0 < c → 0 < n →
  CNN_Regression.conv1 self
    = {| nn.in_channels := c; nn.out_channels := 32;
         nn.kernel_size := 3; nn.stride := 1 |} →
  CNN_Regression.conv2 self
    = {| nn.in_channels := 32; nn.out_channels := 32;
         nn.kernel_size := 3; nn.stride := 2 |} →
  CNN_Regression.conv3 self
    = {| nn.in_channels := 32; nn.out_channels := 64;
         nn.kernel_size := 3; nn.stride := 2 |} →
  CNN_Regression.conv4 self
    = {| nn.in_channels := 64; nn.out_channels := 64;
         nn.kernel_size := 3; nn.stride := 2 |} →
  CNN_Regression.pool1 self = {| nn.pool_kernel_size := 2 |} →
  CNN_Regression.pool2 self = {| nn.pool_kernel_size := 2 |} →
  CNN_Regression.forward (Tensor [n; c; h; w]) self
  = (if (47 <=? h) && (47 <=? w)
     then Ok (Tensor [n; 64 * ((h - 15) / 32 * ((w - 15) / 32))])
     else Raise RuntimeError, self).
Proof.
  intros Hc Hn H1 H2 H3 H4 H5 H6. unfold CNN_Regression.forward.
  unfold mbind at 1, M_bind at 1.
  rewrite (feature_extractor_sizes _ c) by done.
  destruct ((47 <=? h) && (47 <=? w)); [|done].
  unfold mbind, M_bind, lift, mret, M_ret.
  cbn [size]. rewrite list_getitem_0.
  rewrite view_rows_batch by lia.
  unfold nn.numel. cbn [size foldr]. by rewrite Nat.mul_1_r.
Qed.

(** X9.  For images of [c] channels and [h] x [w] pixels [__init__]
    succeeds exactly when both sides have at least 47 pixels, and then
    [fc1] expects [64 * ((h - 15) / 32) * ((w - 15) / 32)] features;
    with a smaller side the trial run through the layers raises. *)
Theorem X9_init_needs_47_pixels c h w (lr : float) od (init : W) :
  0 < c →
  CNN_Regression.fc1 <$> CNN_Regression.__init__ [c; h; w] lr od init
  = if (47 <=? h) && (47 <=? w)
    then Ok (Some {| nn.in_features := 64 * ((h - 15) / 32 * ((w - 15) / 32));
                     nn.out_features := 512 |})
    else Raise RuntimeError.
Proof.
  intros Hc. rewrite init_run by done.
  by destruct ((47 <=? h) && (47 <=? w)).
Qed.

(** X10.  A model built for [c] channels takes a batch of [n] images of
    any size: with [c] channels and both sides of at least 47 pixels
    [forward] returns [n] rows of [64 * ((h - 15) / 32) * ((w - 15) / 32)]
    features, which is what [fc1] expects only where this number agrees
    with the one of the configured size; with another channel count or a
    smaller side it raises.  The module is unchanged either way. *)
Theorem X10_forward_on_any_image_size c h0 w0 (lr : float) od (init : W)
    n ch h w :
  0 < c → 0 < n → 47 ≤ h0 → 47 ≤ w0 →
  ∃ m, CNN_Regression.__init__ [c; h0; w0] lr od init = Ok m
    ∧ CNN_Regression.forward (Tensor [n; ch; h; w]) m
      = (if (ch =? c) && (47 <=? h) && (47 <=? w)
         then Ok (Tensor [n; 64 * ((h - 15) / 32 * ((w - 15) / 32))])
         else Raise RuntimeError, m).
Proof.
  intros Hc Hn Hh Hw. rewrite init_run by done.
  destruct (Nat.leb_spec 47 h0); [|lia]. destruct (Nat.leb_spec 47 w0); [|lia].
  cbn [andb]. eexists. split; [done|].
  destruct (Nat.eqb_spec ch c) as [->|Hne]; cbn [andb].
  - by rewrite (forward_run _ c).
  - unfold CNN_Regression.forward. unfold mbind at 1, M_bind at 1.
    by rewrite feature_extractor_channels.
Qed.

(** X11.  [__init__] rejects every input shape that does not have three
    entries: the empty shape with [IndexError] at [input_shape[0]], any
    other with the error the trial run through the layers raises. *)
Theorem X11_init_rejects_other_ranks shape (lr : float) od (init : W) :
  length shape ≠ 3 →
  CNN_Regression.__init__ shape lr od init
  = Raise (match shape with [] => IndexError | _ => RuntimeError end).
Proof.
  intros Hlen. unfold CNN_Regression.__init__.
  destruct shape as [|c [|h [|w [|d shape]]]]; [done| | |done|].
  - rewrite list_getitem_0. cbn [mbind result_bind].
    unfold CNN_Regression._get_output_shape, CNN_Regression.feature_extractor,
      mbind, M_bind, get, lift. done.
  - rewrite list_getitem_0. cbn [mbind result_bind].
    unfold CNN_Regression._get_output_shape, CNN_Regression.feature_extractor,
      mbind, M_bind, get, lift.
    unfold nn.conv2d at 1. cbn [size CNN_Regression.conv1 nn.in_channels
      nn.kernel_size nn.stride].
    destruct (0 <? c); [|done]. destruct (Nat.eqb_spec 1 c) as [<-|_]; done.
  - rewrite list_getitem_0. cbn [mbind result_bind].
    unfold CNN_Regression._get_output_shape, CNN_Regression.feature_extractor,
      mbind, M_bind, get, lift. done.
Qed.

Lemma feature_extractor_keeps_self self x :
  after (CNN_Regression.feature_extractor x) self = self.
Proof.
  unfold after, CNN_Regression.feature_extractor, mbind, M_bind, get, lift.
  repeat first [destruct (nn.conv2d _ _) | destruct (nn.max_pool2d _ _)];
    done.
Qed.

(** X12.  [forward] leaves the module as it was, for every input, whether
    it returns or raises: it changes no attribute, no parameter and adds
    nothing to the log. *)
Theorem X12_forward_keeps_module self x :
  after (CNN_Regression.forward x) self = self.
Proof.
  unfold after, CNN_Regression.forward. unfold mbind at 1, M_bind at 1.
  pose proof (feature_extractor_keeps_self self x) as Hkeep.
  unfold after in Hkeep.
  destruct (CNN_Regression.feature_extractor x self) as [[t|e] self'];
    cbn [snd] in Hkeep; subst self'; [|done].
  unfold mbind, M_bind, lift.
  destruct (list_getitem (size t) 0); [|done].
  by destruct (nn.view_rows t _).
Qed.

Lemma run_hook_run k b batch_idx self :
  run_hook k b batch_idx self = (Raise ValueError, self).
Proof. by destruct k, b. Qed.

(** X13.  As the notebook stands, whatever sequence of training,
    validation and test steps is called on the module, each call raises
    [ValueError] at [self.log], and after all of them the module is as it
    was: nothing has been logged and no parameter has changed. *)
Theorem X13_hooks_raise_and_log_nothing
    (steps : list (hook * CNN_Regression.batch * nat)) self :
  Forall (λ '(k, b, batch_idx),
    call (run_hook k b batch_idx) self = Raise ValueError) steps
  ∧ after_hooks steps self = self.
Proof.
  split.
  - apply Forall_forall. intros [[k b] batch_idx] _.
    unfold call. by rewrite run_hook_run.
  - unfold after_hooks. induction steps as [|[[k b] batch_idx] steps IH];
      [done|].
    cbn [foldl]. unfold after at 2. by rewrite run_hook_run.
Qed.

(** X14.  On a model that [__init__] has built, running
    [_get_output_shape] on the model's own [input_shape] again returns the
    number of features that [fc1] was built with. *)
Theorem X14_trial_run_agrees_with_fc1 c h w (lr : float) od (init : W) :
  0 < c →
  (m ← CNN_Regression.__init__ [c; h; w] lr od init;
   hidden_dim ← call (CNN_Regression._get_output_shape
                        (CNN_Regression.input_shape m)) m;
   mret (CNN_Regression.fc1 m, hidden_dim))
  = if (47 <=? h) && (47 <=? w)
    then Ok (Some {| nn.in_features := 64 * ((h - 15) / 32 * ((w - 15) / 32));
                     nn.out_features := 512 |},
             64 * ((h - 15) / 32 * ((w - 15) / 32)))
    else Raise RuntimeError.
Proof.
  intros Hc. rewrite init_run by done.
  destruct ((47 <=? h) && (47 <=? w)) eqn:Hfit; [|done].
  cbn [mbind result_bind CNN_Regression.input_shape CNN_Regression.fc1].
  unfold call, CNN_Regression._get_output_shape.
  unfold mbind at 2, M_bind at 1.
  rewrite (feature_extractor_sizes _ c) by done. rewrite Hfit.
  unfold mbind, M_bind, lift, mret, M_ret.
  rewrite view_rows_batch by lia.
  cbn [size]. rewrite list_getitem_1.
  unfold nn.numel. cbn [size foldr fst result_bind result_ret].
  by rewrite Nat.mul_1_r.
Qed.


(** X16.  A model built for [c] channels, [h] x [w] pixels and [od]
    outputs has
    [288 c + 32768 ((h - 15) / 32) ((w - 15) / 32) + 129 od + 229440]
    parameters. *)
Theorem X16_number_of_parameters c h w (lr : float) od (init : W) :
  0 < c →
  Z.of_nat <$> (m ← CNN_Regression.__init__ [c; h; w] lr od init;
                call CNN_Regression._get_number_parameters m)
  = if (47 <=? h) && (47 <=? w)
    then Ok (288 * Z.of_nat c
             + 32768 * Z.of_nat ((h - 15) / 32 * ((w - 15) / 32))
             + 129 * Z.of_nat od + 229440)%Z
    else Raise RuntimeError.
Proof.
  intros Hc. rewrite init_run by done.
  destruct ((47 <=? h) && (47 <=? w)); [|done].
  cbn [mbind result_bind].
  unfold call, CNN_Regression._get_number_parameters, CNN_Regression.parameters,
    mbind, M_bind, get, mret, M_ret.
  cbn [fst CNN_Regression.conv1 CNN_Regression.conv2 CNN_Regression.conv3
       CNN_Regression.conv4 CNN_Regression.fc1 CNN_Regression.fc2
       CNN_Regression.fc3 CNN_Regression.output_layer from_option
       nn.conv2d_parameters nn.linear_parameters nn.in_channels
       nn.out_channels nn.kernel_size nn.in_features nn.out_features app
       fmap list_fmap result_fmap].
  unfold nn.numel. cbn [size foldr sum_list sum_list_with].
  f_equal. generalize ((h - 15) / 32 * ((w - 15) / 32)). intros p.
  unfold id. lia.
Qed.
End model_sizes.

Lemma X9_init_needs_47_pixels_witness :
  (0 < 12)%nat
  ∧ CNN_Regression.fc1
      <$> CNN_Regression.__init__ (float := unit) (W := unit)
            [12; 128; 128]%nat tt 1 tt
    = Ok (Some {| nn.in_features := 576; nn.out_features := 512 |}).
Proof.
  assert (H : (0 < 12)%nat) by lia.
  split; [exact H|].
  exact (X9_init_needs_47_pixels (float := unit) (W := unit)
           12 128 128 tt 1 tt H).
Defined.

Lemma X10_forward_on_any_image_size_witness :
  (0 < 12)%nat ∧ (0 < 5)%nat ∧ (47 ≤ 128)%nat ∧ (47 ≤ 128)%nat
  ∧ ∃ m, CNN_Regression.__init__ (float := unit) (W := unit)
           [12; 128; 128]%nat tt 1 tt = Ok m
      ∧ CNN_Regression.forward (Tensor [5; 12; 64; 96]%nat) m
        = (Ok (Tensor [5; 128]%nat), m).
Proof.
  assert (Hc : (0 < 12)%nat) by lia.
  assert (Hn : (0 < 5)%nat) by lia.
  assert (Hh : (47 ≤ 128)%nat) by lia.
  split; [exact Hc|]. split; [exact Hn|]. split; [exact Hh|].
  split; [exact Hh|].
  exact (X10_forward_on_any_image_size (float := unit) (W := unit)
           12 128 128 tt 1 tt 5 12 64 96 Hc Hn Hh Hh).
Defined.

Lemma X11_init_rejects_other_ranks_witness :
  length [12; 128]%nat ≠ 3%nat
  ∧ CNN_Regression.__init__ (float := unit) (W := unit) [12; 128]%nat tt 1 tt
    = Raise RuntimeError.
Proof.
  assert (H : length [12; 128]%nat ≠ 3%nat) by (cbn; lia).
  split; [exact H|].
  exact (X11_init_rejects_other_ranks (float := unit) (W := unit)
           [12; 128]%nat tt 1 tt H).
Defined.

Lemma X14_trial_run_agrees_with_fc1_witness :
  (0 < 12)%nat
  ∧ (m ← CNN_Regression.__init__ (float := unit) (W := unit)
           [12; 128; 128]%nat tt 1 tt;
     hidden_dim ← call (CNN_Regression._get_output_shape
                          (CNN_Regression.input_shape m)) m;
     mret (CNN_Regression.fc1 m, hidden_dim))
    = Ok (Some {| nn.in_features := 576; nn.out_features := 512 |}, 576%nat).
Proof.
  assert (H : (0 < 12)%nat) by lia.
  split; [exact H|].
  exact (X14_trial_run_agrees_with_fc1 (float := unit) (W := unit)
           12 128 128 tt 1 tt H).
Defined.


Lemma X16_number_of_parameters_witness :
  (0 < 12)%nat
  ∧ Z.of_nat <$> (m ← CNN_Regression.__init__ (float := unit) (W := unit)
                        [12; 128; 128]%nat tt 1 tt;
                  call CNN_Regression._get_number_parameters m)
    = Ok 527937.
Proof.
  assert (H : (0 < 12)%nat) by lia.
  split; [exact H|].
  exact (X16_number_of_parameters (float := unit) (W := unit)
           12 128 128 tt 1 tt H).
Defined.
